(** * git_changelog: a shallow embedding of [changelog.py]

    The program reads the recent history of a git repository through
    [subprocess.run], parses the text it gets back, assembles a prompt and
    sends it to a chat-completion service.

    Python [str] values are modelled as [string]; each [ascii] stands for the
    code point of the same number (0..255).  The external world (the git
    executable and the completion service) is an oracle that answers each call
    from the history of the run so far; everything the program does to the
    world is recorded in that history. *)

From Stdlib Require Import ZArith QArith DecimalString Ascii.
From stdpp Require Import gmap strings list fin_maps.

Local Open Scope stdpp_scope.

(** ** Python strings *)

Module Py.

(** [str.isspace] on one character, restricted to code points below 256:
    TAB LF VT FF CR, the four separators FS GS RS US, SPACE, NEL and NBSP. *)
Definition isspace (c : ascii) : bool :=
  match c with
  | "009" | "010" | "011" | "012" | "013"
  | "028" | "029" | "030" | "031" | " " | "133" | "160" => true
  | _ => false
  end%char.

(** The decimal digits below code point 256. *)
Definition isdigit (c : ascii) : bool :=
  match c with
  | "0" | "1" | "2" | "3" | "4" | "5" | "6" | "7" | "8" | "9" => true
  | _ => false
  end%char.

Definition newline : ascii := "010"%char.

(** [s.lstrip()] *)
Fixpoint lstrip (s : string) : string :=
  match s with
  | String c s' => if isspace c then lstrip s' else s
  | EmptyString => EmptyString
  end.

(** [s.rstrip()]: a character is kept when something that is not white space
    follows it or it is not white space itself. *)
Fixpoint rstrip (s : string) : string :=
  match s with
  | String c s' =>
      match rstrip s' with
      | EmptyString => if isspace c then EmptyString else String c EmptyString
      | r => String c r
      end
  | EmptyString => EmptyString
  end.

(** [s.strip()] *)
Definition strip (s : string) : string := rstrip (lstrip s).

(** [s.split(sep)] for a separator of one character: a list with one more
    element than there are separators in [s], never empty. *)
Fixpoint split (sep : ascii) (s : string) : list string :=
  match s with
  | EmptyString => [EmptyString]
  | String c s' =>
      if Ascii.eqb c sep then EmptyString :: split sep s'
      else match split sep s' with
           | piece :: rest => String c piece :: rest
           | [] => [String c EmptyString]
           end
  end.

(** [s[:n]] *)
Fixpoint slice_to (n : nat) (s : string) : string :=
  match n, s with
  | S n', String c s' => String c (slice_to n' s')
  | _, _ => EmptyString
  end.

(** [str(n)] for an [int]. *)
Definition str_of_int (n : Z) : string := NilZero.string_of_int (Z.to_int n).

(** [c in s] for a character. *)
Fixpoint contains (c : ascii) (s : string) : bool :=
  match s with
  | String c' s' => Ascii.eqb c' c || contains c s'
  | EmptyString => false
  end.

(** [all(p(c) for c in s)] *)
Fixpoint all_chars (p : ascii → bool) (s : string) : bool :=
  match s with
  | String c s' => p c && all_chars p s'
  | EmptyString => true
  end.

(** [s.count(sep)] for a character. *)
Fixpoint count (sep : ascii) (s : string) : nat :=
  match s with
  | String c s' => (if Ascii.eqb c sep then 1 else 0) + count sep s'
  | EmptyString => 0
  end.

Definition head_is (p : ascii → bool) (s : string) : bool :=
  match s with
  | String c _ => p c
  | EmptyString => false
  end.

(** The longest prefix of characters of [p], and what follows it. *)
Fixpoint takewhile (p : ascii → bool) (s : string) : string :=
  match s with
  | String c s' => if p c then String c (takewhile p s') else EmptyString
  | EmptyString => EmptyString
  end.

Fixpoint dropwhile (p : ascii → bool) (s : string) : string :=
  match s with
  | String c s' => if p c then dropwhile p s' else s
  | EmptyString => EmptyString
  end.

End Py.

(** ** The [re] module, as far as the program uses it

    A backtracking matcher in continuation-passing style: alternatives are
    tried left to right, [+] is greedy and gives characters back one at a
    time, a group records the text its body consumed. *)

Module Re.

Inductive regex : Type :=
| Cls (p : ascii → bool)          (* one character of a class: [-], [\d], [\s], [.] *)
| Plus (p : ascii → bool)         (* [c+], greedy *)
| Alt (r1 r2 : regex)             (* [r1|r2] *)
| Seq (r1 r2 : regex)             (* [r1 r2] *)
| Group (i : nat) (r : regex).    (* the [i]-th capturing group *)

Abbreviation captures := (gmap nat string).

(** Zero or more characters of [p], longest first. *)
Fixpoint star {R} (p : ascii → bool) (s : string) (k : string → option R) : option R :=
  match s with
  | String c s' =>
      if p c then
        match star p s' k with
        | Some r => Some r
        | None => k s
        end
      else k s
  | EmptyString => k s
  end.

Definition plus {R} (p : ascii → bool) (s : string) (k : string → option R) : option R :=
  match s with
  | String c s' => if p c then star p s' k else None
  | EmptyString => None
  end.

(** The text between the start [s] of a match and what is left, [s']. *)
Definition consumed (s s' : string) : string :=
  Py.slice_to (String.length s - String.length s') s.

Fixpoint exec (r : regex) (s : string) (caps : captures)
    (k : string → captures → option captures) : option captures :=
  match r with
  | Cls p =>
      match s with
      | String c s' => if p c then k s' caps else None
      | EmptyString => None
      end
  | Plus p => plus p s (λ s', k s' caps)
  | Alt r1 r2 =>
      match exec r1 s caps k with
      | Some m => Some m
      | None => exec r2 s caps k
      end
  | Seq r1 r2 => exec r1 s caps (λ s' caps', exec r2 s' caps' k)
  | Group i r => exec r s caps (λ s' caps', k s' (<[i := consumed s s']> caps'))
  end.

(** [pattern.match(s)]: anchored at the start, free at the end. *)
Definition match_ (r : regex) (s : string) : option captures :=
  exec r s ∅ (λ _ caps, Some caps).

(** [\d], [\s], [.] and a literal character. *)
Definition digit : ascii → bool := Py.isdigit.
Definition space : ascii → bool := Py.isspace.
Definition dot (c : ascii) : bool := negb (Ascii.eqb c Py.newline).
Definition lit (c : ascii) : ascii → bool := Ascii.eqb c.

End Re.

(** ** Values, exceptions and the outside world *)

(** One entry of [diff_stats]: the dict literal
    [{"file": .., "additions": .., "deletions": ..}], built in one place and
    read only through these three keys. *)
Record diff_stat : Type := DiffStat {
  file : string;
  additions : string;
  deletions : string
}.

(** What a commit dict holds under a key: a [str], or the list of stats. *)
Inductive value : Type :=
| VStr (s : string)
| VList (l : list diff_stat).

Global Instance diff_stat_eq_dec : EqDecision diff_stat.
Proof. solve_decision. Defined.

Global Instance value_eq_dec : EqDecision value.
Proof. solve_decision. Defined.

Abbreviation dict := (gmap string value).

(** The exceptions: the three classes the program's own code meets, and any
    other exception, kept as the name of its class and [str(e)]. *)
Inductive exn : Type :=
| CalledProcessError (cmd : list string) (code : Z) (err : string)
| KeyError (key : string)
| TypeError
| OtherError (cls text : string).

Inductive outcome (A : Type) : Type :=
| Return (a : A)
| Raise (e : exn).
Arguments Return {A} a.
Arguments Raise {A} e.

Global Instance outcome_ret : MRet outcome := λ A a, Return a.
Global Instance outcome_bind : MBind outcome := λ A B f m,
  match m with
  | Return a => f a
  | Raise e => Raise e
  end.

(** What [subprocess.run(.., capture_output=True, text=True)] collects. *)
Record CompletedProcess : Type := {
  returncode : Z;
  stdout : string;
  stderr : string
}.

(** The keyword arguments of [openai.ChatCompletion.create]. *)
Record ChatRequest : Type := {
  model : string;
  messages : list (string * string);     (* role, content *)
  temperature : Q
}.

(** The service either answers with a response object, of which only the
    generated text is kept here, or the call raises an [Exception] [e], kept
    as [str(e)], or it raises something that is not an [Exception]
    ([KeyboardInterrupt], [SystemExit]), kept as its class and text. *)
Inductive reply : Type :=
| Response (content : string)
| Failure (text : string)
| Interrupt (cls text : string).

(** What the program does to the world, in the order it does it.  [Run args]
    is a call of [subprocess.run] with [args], whether or not a process came
    to exist. *)
Inductive event : Type :=
| Run (args : list string)
| Printed (text : string)
| Create (req : ChatRequest).

Abbreviation history := (list event).

(** The world answers each call from the history so far.  [faults] tells
    whether a call of [subprocess.run] raises an exception that is not
    [CalledProcessError], and which: [ValueError] for a NUL in an argument,
    [OSError] when git cannot be started, [UnicodeDecodeError] when the output
    does not decode.  When it raises none, [process] is what the process
    left. *)
Record World : Type := {
  process : history → list string → CompletedProcess;
  faults : history → list string → option (string * string);
  service : history → ChatRequest → reply
}.

(** Computations that act on the world and may raise. *)
Definition M (A : Type) : Type := history → outcome A * history.

Global Instance M_ret : MRet M := λ A a h, (Return a, h).
Global Instance M_bind : MBind M := λ A B f m h,
  match m h with
  | (Return a, h') => f a h'
  | (Raise e, h') => (Raise e, h')
  end.

Definition lift {A} (o : outcome A) : M A := λ h, (o, h).

Definition emit (e : event) : M () := λ h, (Return (), h ++ [e]).

(** [print(text)] *)
Definition print (text : string) : M () := emit (Printed text).

(** [try: body / except <class> as e: handler]; [handler e] is [None] when
    the clause does not name the class of [e]. *)
Definition try_except {A} (body : M A) (handler : exn → option (M A)) : M A := λ h,
  match body h with
  | (Return a, h') => (Return a, h')
  | (Raise e, h') =>
      match handler e with
      | Some recover => recover h'
      | None => (Raise e, h')
      end
  end.

(** [for x in xs: acc = body(acc, x)] *)
Fixpoint for_each {A B} (body : B → A → M B) (xs : list A) (acc : B) : M B :=
  match xs with
  | [] => mret acc
  | x :: xs' => acc' ← body acc x; for_each body xs' acc'
  end.

Fixpoint for_each_pure {A B} (body : B → A → outcome B) (xs : list A) (acc : B)
    : outcome B :=
  match xs with
  | [] => mret acc
  | x :: xs' => acc' ← body acc x; for_each_pure body xs' acc'
  end.

Definition nl : string := String Py.newline EmptyString.

(** [d[key]] *)
Definition getitem (d : dict) (key : string) : outcome value :=
  match d !! key with
  | Some v => Return v
  | None => Raise (KeyError key)
  end.

(** [v[:n]] *)
Definition slice (n : nat) (v : value) : value :=
  match v with
  | VStr s => VStr (Py.slice_to n s)
  | VList l => VList (take n l)
  end.

(** [bool(v)] *)
Definition truthy (v : value) : bool :=
  match v with
  | VStr s => negb (String.eqb s "")
  | VList l => match l with [] => false | _ => true end
  end.

(** [{**a, **b}]: the keys of [b] win. *)
Definition merge (a b : dict) : dict := b ∪ a.

(** ** The program *)

Section Changelog.

(** The world the program runs in, and Python's [repr] of a list of stat
    dicts, which an f-string would print if such a list stood where the
    program expects a [str]. *)
Context (w : World) (repr : list diff_stat → string).

(** [f"{v}"] *)
Definition format (v : value) : string :=
  match v with
  | VStr s => s
  | VList l => repr l
  end.

(** [subprocess.run(args, capture_output=True, text=True, check=True)] *)
Definition run (args : list string) : M CompletedProcess := λ h,
  match faults w h args with
  | Some (cls, text) => (Raise (OtherError cls text), h ++ [Run args])
  | None =>
      let result := process w h args in
      if (returncode result =? 0)%Z
      then (Return result, h ++ [Run args])
      else (Raise (CalledProcessError args (returncode result) (stderr result)),
            h ++ [Run args])
  end.

(** [openai.ChatCompletion.create(..)] *)
Definition create (req : ChatRequest) : M reply := λ h,
  (Return (service w h req), h ++ [Create req]).

Definition format_str : string := "--pretty=format:%H|%an|%ad|%s".

(** The body of the loop over the lines of [git log]. *)
Definition commits_step (commits : list dict) (line : string) : list dict :=
  if String.eqb line "" then commits
  else
    let parts := Py.split "|"%char line in
    match parts with
    | [commit_hash; author; date; message] =>
        commits ++ [ {[ "hash" := VStr commit_hash;
                        "author" := VStr author;
                        "date" := VStr date;
                        "message" := VStr message ]} ]
    | _ => commits
    end.

Definition get_recent_commits (n : Z) : M (list dict) :=
  try_except
    (result ← run ["git"; "log"; "-n" +:+ Py.str_of_int n; format_str];
     let commits := foldl commits_step [] (Py.split Py.newline (Py.strip (stdout result))) in
     mret commits)
    (λ e, match e with
          | CalledProcessError _ _ err =>
              Some (_ ← print ("Error retrieving commits: " +:+ Py.strip err);
                    mret [])
          | _ => None
          end).

(** [(\d+|-)\s+(\d+|-)\s+(.+)] *)
Definition pattern : Re.regex :=
  Re.Seq (Re.Group 1 (Re.Alt (Re.Plus Re.digit) (Re.Cls (Re.lit "-"%char))))
 (Re.Seq (Re.Plus Re.space)
 (Re.Seq (Re.Group 2 (Re.Alt (Re.Plus Re.digit) (Re.Cls (Re.lit "-"%char))))
 (Re.Seq (Re.Plus Re.space)
         (Re.Group 3 (Re.Plus Re.dot))))).

(** [match.group(i)]; every group of [pattern] takes part in every match. *)
Definition group (m : Re.captures) (i : nat) : string := default "" (m !! i).

(** The body of the loop over the lines of [git show --numstat]. *)
Definition stats_step (diff_stats : list diff_stat) (line : string) : list diff_stat :=
  match Re.match_ pattern line with
  | Some m =>
      let additions := group m 1 in
      let deletions := group m 2 in
      let file_path := group m 3 in
      diff_stats ++ [ {| file := file_path;
                         additions := additions;
                         deletions := deletions |} ]
  | None => diff_stats
  end.

Definition get_commit_details (commit_hash : string) : M dict :=
  try_except
    (message ← run ["git"; "show"; "--format=%B"; commit_hash];
     changes ← run ["git"; "show"; "--name-status"; commit_hash];
     num_stats ← run ["git"; "show"; "--numstat"; commit_hash];
     let diff_stats :=
       foldl stats_step [] (Py.split Py.newline (Py.strip (stdout num_stats))) in
     mret ({[ "hash" := VStr commit_hash;
              "full_message" := VStr (Py.strip (stdout message));
              "changes" := VStr (Py.strip (stdout changes));
              "diff_stats" := VList diff_stats ]} : dict))
    (λ e, match e with
          | CalledProcessError _ _ err =>
              Some (_ ← print ("Error retrieving commit details for " +:+ commit_hash
                               +:+ ": " +:+ err);
                    mret (∅ : dict))
          | _ => None
          end).

Definition preamble : string :=
  "Based on the following git commit history, generate a user-friendly changelog "
  +:+ "that summarizes the changes in a way that would be meaningful to the end user. "
  +:+ "Git Commit History:" +:+ nl.

Definition closing : string :=
  "Please generate a changelog with clear sections (e.g., Features, Improvements, Bug Fixes) "
  +:+ "using markdown formatting. Provide a concise summary that focues on the changes that matter most to the end user.".

(** The line of one stat: [f"File: {file} (+{additions} / -{deletions})\n"]. *)
Definition stat_line (stat : diff_stat) : string :=
  "File: " +:+ file stat +:+ " (+" +:+ additions stat +:+ " / -" +:+ deletions stat
  +:+ ")" +:+ nl.

(** [for stat in v: prompt += ..]: over a list the stats in order; over a
    [str] the first character is not subscriptable by ['file']. *)
Definition add_stats (prompt : string) (v : value) : outcome string :=
  match v with
  | VList l => for_each_pure (λ prompt stat, mret (prompt +:+ stat_line stat)) l prompt
  | VStr s => match s with
              | EmptyString => mret prompt
              | String _ _ => Raise TypeError
              end
  end.

(** The body of the loop over the commits in [prepare_prompt]. *)
Definition add_commit (prompt : string) (commit : dict) : outcome string :=
  commit_hash ← getitem commit "hash";
  let prompt := prompt +:+ "Commit Hash: " +:+ format (slice 8 commit_hash) +:+ nl in
  author ← getitem commit "author";
  let prompt := prompt +:+ "Author: " +:+ format author +:+ nl in
  date ← getitem commit "date";
  let prompt := prompt +:+ "Date: " +:+ format date +:+ nl in
  message ← getitem commit "message";
  let prompt := prompt +:+ "Message: " +:+ format message +:+ nl in
  prompt ← match commit !! "full_message" with
           | Some full_message =>
               if decide (full_message ≠ message)
               then mret (prompt +:+ "Details: " +:+ format full_message +:+ nl)
               else mret prompt
           | None => mret prompt
           end;
  prompt ← match commit !! "diff_stats" with
           | Some diff_stats =>
               if truthy diff_stats then add_stats prompt diff_stats else mret prompt
           | None => mret prompt
           end;
  mret (prompt +:+ nl).

Definition prepare_prompt (commits : list dict) : outcome string :=
  prompt ← for_each_pure add_commit commits preamble;
  mret (prompt +:+ closing).

(** The body of the loop over the commits in [generate_changelog]. *)
Definition detail_step (detailed_commits : list dict) (commit : dict) : M (list dict) :=
  commit_hash ← lift (getitem commit "hash");
  details ← match commit_hash with
            | VStr commit_hash => get_commit_details commit_hash
            | VList _ => lift (Raise TypeError)
            end;
  let detailed_commit := merge commit details in
  mret (detailed_commits ++ [detailed_commit]).

Definition system_text : string :=
  "You are a helpful assistant that generates changelogs from git commit histories".

Definition no_history : string :=
  "No commit history found or not in a git repository".

(** The result is [Some s] for a returned [str] and [None] for [None]. *)
Definition generate_changelog (n : Z) : M (option string) :=
  commits ← get_recent_commits n;
  match commits with
  | [] => mret (Some no_history)
  | _ :: _ =>
      detailed_commits ← for_each detail_step commits [];
      prompt ← lift (prepare_prompt detailed_commits);
      response ← create {| model := "gpt-3.5-turbo";
                           messages := [("user", system_text); ("user", prompt)];
                           temperature := 7 # 10 |};
      match response with
      | Failure e => mret (Some ("Error generating changelog: " +:+ e))
      | Interrupt cls text => lift (Raise (OtherError cls text))
      | Response _ => mret None
      end
  end.

End Changelog.

(** ** Vocabulary of the specification *)

(** The two records of the data model, as the dicts the program builds. *)
Definition CommitSummary (commit_hash author date message : string) : dict :=
  {[ "hash" := VStr commit_hash; "author" := VStr author;
     "date" := VStr date; "message" := VStr message ]}.

Definition CommitDetail (commit_hash full_message changes : string)
    (diff_stats : list diff_stat) : dict :=
  {[ "hash" := VStr commit_hash; "full_message" := VStr full_message;
     "changes" := VStr changes; "diff_stats" := VList diff_stats ]}.

(** A line of the log gives a summary exactly when splitting it on the
    delimiter gives four fields. *)
Definition summary_of_line (line : string) : option dict :=
  match Py.split "|"%char line with
  | [commit_hash; author; date; message] =>
      Some (CommitSummary commit_hash author date message)
  | _ => None
  end.

(** One line of [git log], split into its four columns. *)
Definition row : Type := string * string * string * string.

Definition summary_of_row (r : row) : dict :=
  let '(commit_hash, author, date, message) := r in
  CommitSummary commit_hash author date message.

Definition hash_of_row (r : row) : string := r.1.1.1.

(** The enriched commit of a row: the summary alone, or the summary merged
    with a complete detail record fetched with its hash. *)
Definition enriched (r : row) (c : dict) : Prop :=
  c = summary_of_row r ∨
  ∃ fm ch ds, c = merge (summary_of_row r) (CommitDetail (hash_of_row r) fm ch ds).

(** The commands the program runs. *)
Definition log_cmd (n : Z) : list string :=
  ["git"; "log"; "-n" +:+ Py.str_of_int n; format_str].

Definition show_cmd (what commit_hash : string) : list string :=
  ["git"; "show"; what; commit_hash].

(** The lines the program iterates over, given what a command printed. *)
Definition output_lines (result : CompletedProcess) : list string :=
  Py.split Py.newline (Py.strip (stdout result)).

Definition parsed_stats (result : CompletedProcess) : list diff_stat :=
  concat (map (stats_step []) (output_lines result)).

Definition detail_error (commit_hash err : string) : string :=
  "Error retrieving commit details for " +:+ commit_hash +:+ ": " +:+ err.

(** A count column of numstat: digits, or the marker [-]. *)
Definition count_field (a : string) : Prop :=
  a = "-" ∨ (a ≠ "" ∧ Py.all_chars Py.isdigit a = true).

(** A non-empty run of white space. *)
Definition blank (w : string) : Prop :=
  w ≠ "" ∧ Py.all_chars Py.isspace w = true.

(** [line] reads as additions [a], white space, deletions [d], white space
    and the path [p], the rest of the line.  The white space before the path
    is as long as it can be; when nothing but white space follows the second
    count, its last character is the path. *)
Definition numstat_shape (line a d p : string) : Prop :=
  ∃ w1 w2,
    line = a +:+ w1 +:+ d +:+ w2 +:+ p ∧
    count_field a ∧ blank w1 ∧ count_field d ∧ blank w2 ∧
    p ≠ "" ∧ (Py.head_is Py.isspace p = false ∨ String.length p = 1).

(** [(\d+|-)], the end of a match, and the groups of a matched stat line. *)
Definition count_re : Re.regex :=
  Re.Alt (Re.Plus Re.digit) (Re.Cls (Re.lit "-"%char)).

Definition finish : string → Re.captures → option Re.captures :=
  λ _ caps, Some caps.

Definition stat_captures (a d p : string) : Re.captures :=
  <[3 := p]> (<[2 := d]> (<[1 := a]> ∅)).

(** The text the Prompt Builder emits for one commit. *)
Definition header_text (commit_hash author date message : string) : string :=
  "Commit Hash: " +:+ Py.slice_to 8 commit_hash +:+ nl
  +:+ "Author: " +:+ author +:+ nl
  +:+ "Date: " +:+ date +:+ nl
  +:+ "Message: " +:+ message +:+ nl.

Definition details_text (message : string) (full_message : option string) : string :=
  match full_message with
  | Some fm => if decide (fm = message) then "" else "Details: " +:+ fm +:+ nl
  | None => ""
  end.

Definition stats_text (l : list diff_stat) : string :=
  foldr (λ stat rest, stat_line stat +:+ rest) "" l.

Definition commit_text (commit_hash author date message : string)
    (full_message : option string) (stats : list diff_stat) : string :=
  header_text commit_hash author date message
  +:+ details_text message full_message +:+ stats_text stats +:+ nl.

(** The request sent for a prompt, and what the caller gets for each answer. *)
Definition chat_request (prompt : string) : ChatRequest :=
  {| model := "gpt-3.5-turbo";
     messages := [("user", system_text); ("user", prompt)];
     temperature := 7 # 10 |}.

Definition error_text (e : string) : string := "Error generating changelog: " +:+ e.

Definition outcome_of_reply (r : reply) : outcome (option string) :=
  match r with
  | Failure e => Return (Some (error_text e))
  | Interrupt cls text => Raise (OtherError cls text)
  | Response _ => Return None
  end.

(** Events that leave the service alone. *)
Definition is_create (e : event) : bool :=
  match e with Create _ => true | _ => false end.

Definition quiet (evs : history) : Prop := Forall (λ e, is_create e = false) evs.

(** ** Sample worlds

    A repository with three commits, one of which has the delimiter in its
    subject line and one of which cannot be shown with [--numstat]. *)

Module Sample.

Definition tab : string := String "009"%char "".

Definition completed (out : string) : CompletedProcess :=
  {| returncode := 0; stdout := out; stderr := "" |}.

Definition failed (code : Z) (err : string) : CompletedProcess :=
  {| returncode := code; stdout := ""; stderr := err |}.

Definition log_text : string :=
  "aaaa1111ffff|Alice|2024-01-01|Add login" +:+ nl
  +:+ "bbbb2222ffff|Bob|2024-01-02|Fix crash|hang" +:+ nl
  +:+ "cccc3333ffff|Carol|2024-01-03|Fix bug" +:+ nl.

Definition numstat_text : string :=
  "12" +:+ tab +:+ "3" +:+ tab +:+ "docs/my file.txt" +:+ nl
  +:+ "binary files follow" +:+ nl
  +:+ "-" +:+ tab +:+ "-" +:+ tab +:+ "logo.png" +:+ nl.

Definition git (log : CompletedProcess) : history → list string → CompletedProcess :=
  λ _ args,
    match args with
    | ["git"; "log"; _; _] => log
    | ["git"; "show"; "--format=%B"; "aaaa1111ffff"] =>
        completed ("Add login" +:+ nl +:+ nl +:+ "Longer explanation." +:+ nl)
    | ["git"; "show"; "--format=%B"; _] => completed ("Fix bug" +:+ nl)
    | ["git"; "show"; "--name-status"; _] => completed ("M" +:+ tab +:+ "docs/my file.txt")
    | ["git"; "show"; "--numstat"; "aaaa1111ffff"] => completed numstat_text
    | ["git"; "show"; "--numstat"; _] => failed 128 ("fatal: bad object" +:+ nl)
    | _ => failed 1 ""
    end.

Definition world (log : CompletedProcess) (answer : reply) : World :=
  {| process := git log; faults := λ _ _, None; service := λ _ _, answer |}.

(** The service answers. *)
Definition world_up : World := world (completed log_text) (Response "## Changelog").

(** The service is unreachable. *)
Definition world_down : World := world (completed log_text) (Failure "Connection error.").

(** Not inside a repository. *)
Definition world_bare : World :=
  world (failed 128 ("fatal: not a git repository" +:+ nl)) (Response "## Changelog").

(** A [repr] for the runs below, none of which prints a list. *)
Definition repr : list diff_stat → string := λ _, "".

Definition alice : row := ("aaaa1111ffff", "Alice", "2024-01-01", "Add login").
Definition carol : row := ("cccc3333ffff", "Carol", "2024-01-03", "Fix bug").

(** What a run does before it asks the service, and the prompt it sends. *)
Definition fetched : history :=
  [Run (log_cmd 3);
   Run (show_cmd "--format=%B" "aaaa1111ffff");
   Run (show_cmd "--name-status" "aaaa1111ffff");
   Run (show_cmd "--numstat" "aaaa1111ffff");
   Run (show_cmd "--format=%B" "cccc3333ffff");
   Run (show_cmd "--name-status" "cccc3333ffff");
   Run (show_cmd "--numstat" "cccc3333ffff");
   Printed (detail_error "cccc3333ffff" ("fatal: bad object" +:+ nl))].

Definition prompt : string :=
  preamble
  +:+ commit_text "aaaa1111ffff" "Alice" "2024-01-01" "Add login"
        (Some ("Add login" +:+ nl +:+ nl +:+ "Longer explanation."))
        [ {| file := "docs/my file.txt"; additions := "12"; deletions := "3" |};
          {| file := "logo.png"; additions := "-"; deletions := "-" |} ]
  +:+ commit_text "cccc3333ffff" "Carol" "2024-01-03" "Fix bug" None []
  +:+ closing.

End Sample.

(** ** More vocabulary *)

(** [sep.join(l)] *)
Fixpoint join (sep : string) (l : list string) : string :=
  match l with
  | [] => ""
  | x :: l' =>
      match l' with
      | [] => x
      | _ :: _ => x +:+ sep +:+ join sep l'
      end
  end.

(** The line [git log] prints for a row. *)
Definition line_of_row (r : row) : string :=
  let '(commit_hash, author, date, message) := r in
  commit_hash +:+ "|" +:+ author +:+ "|" +:+ date +:+ "|" +:+ message.

(** A field that holds neither the delimiter nor a newline. *)
Definition clean_field (s : string) : bool :=
  negb (Py.contains "|"%char s) && negb (Py.contains Py.newline s).

Definition clean_row (r : row) : bool :=
  let '(commit_hash, author, date, message) := r in
  clean_field commit_hash && clean_field author && clean_field date
  && clean_field message.

(** The number of subprocesses in a stretch of history. *)
Definition is_run (e : event) : bool :=
  match e with Run _ => true | _ => false end.

Definition runs (evs : history) : nat := length (List.filter is_run evs).

(** The text of a commit dict in the prompt, read off its fields. *)
Definition str_field (c : dict) (key : string) : string :=
  match c !! key with
  | Some (VStr s) => s
  | _ => ""
  end.

Definition text_of_commit (c : dict) : string :=
  commit_text (str_field c "hash") (str_field c "author") (str_field c "date")
    (str_field c "message")
    (match c !! "full_message" with Some (VStr fm) => Some fm | _ => None end)
    (match c !! "diff_stats" with Some (VList l) => l | _ => [] end).

Definition body_text (cs : list dict) : string :=
  foldr (λ c rest, text_of_commit c +:+ rest) "" cs.

(** The first of the four summary keys a dict lacks. *)
Definition first_missing (c : dict) : option string :=
  List.find (λ key, match c !! key with None => true | Some _ => false end)
    ["hash"; "author"; "date"; "message"].

(** The first character of a stat line: a digit or the marker. *)
Definition count_start (c : ascii) : bool :=
  Py.isdigit c || Ascii.eqb c "-"%char.

(** ** More sample worlds *)

Module Sample2.

(** A log of two well-formed lines. *)
Definition rows : list row := [Sample.alice; Sample.carol].

Definition clean_world : World :=
  Sample.world (Sample.completed (join nl (map line_of_row rows)))
               (Response "## Changelog").



End Sample2.

(** ** How the calls of a fetch end *)

(** How one call of [subprocess.run(.., check=True)] ends: the process exits
    with status zero, or with another status ([CalledProcessError]), or the
    call raises an exception of another class. *)
Inductive ending : Type :=
| Completed (result : CompletedProcess)
| Failed (code : Z) (err : string)
| Escaped (cls text : string).

Definition ending_of (w : World) (h : history) (args : list string) : ending :=
  match faults w h args with
  | Some (cls, text) => Escaped cls text
  | None =>
      let result := process w h args in
      if (returncode result =? 0)%Z then Completed result
      else Failed (returncode result) (stderr result)
  end.

Definition message_cmd (commit_hash : string) : list string :=
  show_cmd "--format=%B" commit_hash.
Definition changes_cmd (commit_hash : string) : list string :=
  show_cmd "--name-status" commit_hash.
Definition numstat_cmd (commit_hash : string) : list string :=
  show_cmd "--numstat" commit_hash.

(** The ways a fetch for [commit_hash] can go from history [h]: what it
    returns or raises, and what it does on the way. *)
Inductive fetch_result (w : World) (commit_hash : string) (h : history)
    : outcome dict → history → Prop :=
| message_escaped cls text :
    ending_of w h (message_cmd commit_hash) = Escaped cls text →
    fetch_result w commit_hash h (Raise (OtherError cls text))
      [Run (message_cmd commit_hash)]
| message_failed code err :
    ending_of w h (message_cmd commit_hash) = Failed code err →
    fetch_result w commit_hash h (Return ∅)
      [Run (message_cmd commit_hash); Printed (detail_error commit_hash err)]
| changes_escaped message cls text :
    ending_of w h (message_cmd commit_hash) = Completed message →
    ending_of w (h ++ [Run (message_cmd commit_hash)]) (changes_cmd commit_hash)
    = Escaped cls text →
    fetch_result w commit_hash h (Raise (OtherError cls text))
      [Run (message_cmd commit_hash); Run (changes_cmd commit_hash)]
| changes_failed message code err :
    ending_of w h (message_cmd commit_hash) = Completed message →
    ending_of w (h ++ [Run (message_cmd commit_hash)]) (changes_cmd commit_hash)
    = Failed code err →
    fetch_result w commit_hash h (Return ∅)
      [Run (message_cmd commit_hash); Run (changes_cmd commit_hash);
       Printed (detail_error commit_hash err)]
| numstat_escaped message changes cls text :
    ending_of w h (message_cmd commit_hash) = Completed message →
    ending_of w (h ++ [Run (message_cmd commit_hash)]) (changes_cmd commit_hash)
    = Completed changes →
    ending_of w (h ++ [Run (message_cmd commit_hash); Run (changes_cmd commit_hash)])
      (numstat_cmd commit_hash) = Escaped cls text →
    fetch_result w commit_hash h (Raise (OtherError cls text))
      [Run (message_cmd commit_hash); Run (changes_cmd commit_hash);
       Run (numstat_cmd commit_hash)]
| numstat_failed message changes code err :
    ending_of w h (message_cmd commit_hash) = Completed message →
    ending_of w (h ++ [Run (message_cmd commit_hash)]) (changes_cmd commit_hash)
    = Completed changes →
    ending_of w (h ++ [Run (message_cmd commit_hash); Run (changes_cmd commit_hash)])
      (numstat_cmd commit_hash) = Failed code err →
    fetch_result w commit_hash h (Return ∅)
      [Run (message_cmd commit_hash); Run (changes_cmd commit_hash);
       Run (numstat_cmd commit_hash); Printed (detail_error commit_hash err)]
| all_completed message changes num_stats :
    ending_of w h (message_cmd commit_hash) = Completed message →
    ending_of w (h ++ [Run (message_cmd commit_hash)]) (changes_cmd commit_hash)
    = Completed changes →
    ending_of w (h ++ [Run (message_cmd commit_hash); Run (changes_cmd commit_hash)])
      (numstat_cmd commit_hash) = Completed num_stats →
    fetch_result w commit_hash h
      (Return (CommitDetail commit_hash (Py.strip (stdout message))
                            (Py.strip (stdout changes)) (parsed_stats num_stats)))
      [Run (message_cmd commit_hash); Run (changes_cmd commit_hash);
       Run (numstat_cmd commit_hash)].

(** An exception that the world raised in a call of [subprocess.run]. *)
Definition from_git (w : World) (e : exn) : Prop :=
  ∃ cls text h args, e = OtherError cls text ∧ faults w h args = Some (cls, text).

(** No call of [subprocess.run] raises anything but [CalledProcessError]. *)
Definition git_runs (w : World) : Prop := ∀ h args, faults w h args = None.

(** The texts of a list of commits, one after the other. *)
Definition concat_text (texts : list string) : string :=
  foldr (λ text rest, text +:+ rest) "" texts.

(** * Facts *)

Module PyFacts.
Import Py.

Lemma str_app_cons c s t : String c s +:+ t = String c (s +:+ t).
Proof. reflexivity. Qed.

Lemma str_app_nil_l s : "" +:+ s = s.
Proof. reflexivity. Qed.

Lemma str_app_nil_r s : s +:+ "" = s.
Proof. induction s as [|c s IH]; [done|]. by rewrite str_app_cons, IH. Qed.

Lemma str_app_assoc s t u : (s +:+ t) +:+ u = s +:+ t +:+ u.
Proof. induction s as [|c s IH]; [done|]. by rewrite !str_app_cons, IH. Qed.

Lemma str_app_length s t : String.length (s +:+ t) = String.length s + String.length t.
Proof. induction s as [|c s IH]; [done|]. rewrite str_app_cons. simpl. by rewrite IH. Qed.

Lemma str_app_inv_head s t u : s +:+ t = s +:+ u → t = u.
Proof. induction s as [|c s IH]; [done|]. rewrite !str_app_cons. intros [= H]. auto. Qed.

Lemma slice_to_app s t : slice_to (String.length s) (s +:+ t) = s.
Proof. induction s as [|c s IH]; [by destruct t|]. rewrite str_app_cons. simpl. by rewrite IH. Qed.

Lemma all_chars_app p s t :
  all_chars p (s +:+ t) = all_chars p s && all_chars p t.
Proof.
  induction s as [|c s IH]; [done|]. rewrite str_app_cons. simpl.
  rewrite IH. by rewrite andb_assoc.
Qed.

Lemma contains_app c s t : contains c (s +:+ t) = contains c s || contains c t.
Proof.
  induction s as [|c' s IH]; [done|]. rewrite str_app_cons. simpl.
  rewrite IH. by rewrite orb_assoc.
Qed.

Lemma count_app sep s t : count sep (s +:+ t) = count sep s + count sep t.
Proof.
  induction s as [|c s IH]; [done|]. rewrite str_app_cons. simpl. rewrite IH. lia.
Qed.

Lemma contains_count sep s : contains sep s = true → 0 < count sep s.
Proof.
  induction s as [|c s IH]; [done|]. simpl.
  destruct (Ascii.eqb c sep); simpl; [lia|auto].
Qed.

Lemma split_not_nil sep s : split sep s ≠ [].
Proof.
  destruct s as [|c s]; [done|]. simpl.
  destruct (Ascii.eqb c sep); [done|]. by destruct (split sep s).
Qed.

Lemma length_split sep s : length (split sep s) = S (count sep s).
Proof.
  induction s as [|c s IH]; [done|]. simpl.
  destruct (Ascii.eqb c sep); simpl; [by rewrite IH|].
  pose proof (split_not_nil sep s). destruct (split sep s); [done|]. done.
Qed.

(** No piece of a split contains the separator. *)
Lemma split_pieces sep s piece :
  piece ∈ split sep s → contains sep piece = false.
Proof.
  revert piece. induction s as [|c s IH]; intros piece.
  - simpl. intros ->%list_elem_of_singleton. done.
  - simpl. destruct (Ascii.eqb c sep) eqn:E.
    + intros [->|H]%elem_of_cons; [done|auto].
    + pose proof (split_not_nil sep s). destruct (split sep s) as [|p0 rest]; [done|].
      intros [->|H']%elem_of_cons.
      * simpl. rewrite E. simpl. apply IH. left.
      * apply IH. by right.
Qed.

(** A string without the separator is its own split. *)
Lemma split_free sep s : contains sep s = false → split sep s = [s].
Proof.
  induction s as [|c s IH]; [done|]. simpl.
  destruct (Ascii.eqb c sep); simpl; [done|]. intros H. by rewrite IH.
Qed.

Lemma split_app sep s t :
  contains sep s = false →
  split sep (s +:+ String sep t) = s :: split sep t.
Proof.
  induction s as [|c s IH]; simpl.
  - intros _. by rewrite Ascii.eqb_refl.
  - destruct (Ascii.eqb c sep); simpl; [done|].
    intros H. by rewrite IH.
Qed.

End PyFacts.

Module ReFacts.
Import Py Re PyFacts.

Lemma takewhile_dropwhile p s : takewhile p s +:+ dropwhile p s = s.
Proof.
  induction s as [|c s IH]; [done|]. simpl. destruct (p c); [|done].
  by rewrite str_app_cons, IH.
Qed.

Lemma all_takewhile p s : all_chars p (takewhile p s) = true.
Proof. induction s as [|c s IH]; [done|]. simpl. destruct (p c) eqn:E; [|done]. simpl. by rewrite E. Qed.

Lemma head_dropwhile p s : head_is p (dropwhile p s) = false.
Proof. induction s as [|c s IH]; [done|]. simpl. destruct (p c) eqn:E; [done|]. simpl. done. Qed.

Lemma dropwhile_app p w r :
  all_chars p w = true → head_is p r = false → dropwhile p (w +:+ r) = r.
Proof.
  induction w as [|c w IH]; simpl.
  - intros _. destruct r as [|c r]; [done|]. simpl. by intros ->.
  - intros [-> H]%andb_prop Hr. auto.
Qed.

Lemma dropwhile_all p s : all_chars p s = true → dropwhile p s = "".
Proof.
  intros H. rewrite <-(str_app_nil_r s). by apply dropwhile_app.
Qed.

Lemma consumed_app w r : consumed (w +:+ r) r = w.
Proof.
  unfold consumed. rewrite str_app_length.
  replace (String.length w + String.length r - String.length r)
    with (String.length w) by lia.
  apply slice_to_app.
Qed.

Lemma consumed_all s : consumed s "" = s.
Proof. rewrite <-(str_app_nil_r s) at 1. apply consumed_app. Qed.

Section Star.
Context {R : Type} (p : ascii → bool) (k : string → option R).

(** The longest run is tried first. *)
Lemma star_longest s x : k (dropwhile p s) = Some x → star p s k = Some x.
Proof.
  induction s as [|c s IH]; [done|]. simpl.
  destruct (p c); [|done]. intros H. by rewrite (IH H).
Qed.

(** Whatever [star] answers, the continuation answered it after a run. *)
Lemma star_Some s x :
  star p s k = Some x →
  ∃ w r, s = w +:+ r ∧ all_chars p w = true ∧ k r = Some x.
Proof.
  induction s as [|c s IH]; simpl.
  - intros H. by exists "", "".
  - destruct (p c) eqn:E.
    + destruct (star p s k) as [y|] eqn:Es.
      * intros [= ->]. destruct (IH eq_refl) as (w & r & -> & Hw & Hk).
        exists (String c w), r. simpl. by rewrite E.
      * intros H. by exists "", (String c s).
    + intros H. by exists "", (String c s).
Qed.

Lemma plus_longest s x :
  head_is p s = true → k (dropwhile p s) = Some x → plus p s k = Some x.
Proof.
  destruct s as [|c s]; [done|]. simpl. intros ->. apply star_longest.
Qed.

Lemma plus_Some s x :
  plus p s k = Some x →
  ∃ w r, s = w +:+ r ∧ w ≠ "" ∧ all_chars p w = true ∧ k r = Some x.
Proof.
  destruct s as [|c s]; [done|]. simpl. destruct (p c) eqn:E; [|done].
  intros (w & r & -> & Hw & Hk)%star_Some.
  exists (String c w), r. simpl. by rewrite E.
Qed.

Lemma plus_head s : head_is p s = false → plus p s k = None.
Proof. destruct s as [|c s]; [done|]. simpl. by intros ->. Qed.

(** When the run reaches the end of the string and the continuation wants one
    character, the last character of the run is given back. *)
Lemma star_give_back w c x :
  all_chars p w = true → p c = true →
  k "" = None → k (String c "") = Some x →
  star p (w +:+ String c "") k = Some x.
Proof.
  intros Hw Hc H0 H1. induction w as [|c' w IH]; simpl.
  - by rewrite Hc, H0.
  - simpl in Hw. apply andb_prop in Hw as [-> Hw]. by rewrite (IH Hw).
Qed.

End Star.

End ReFacts.

Module PatternFacts.
Import Py Re PyFacts ReFacts.

Lemma space_not_digit c : isspace c = true → isdigit c = false.
Proof. destruct c as [[] [] [] [] [] [] [] []]; done. Qed.

Lemma digit_not_space c : isdigit c = true → isspace c = false.
Proof. destruct c as [[] [] [] [] [] [] [] []]; done. Qed.

Lemma lit_eq c c' : lit c c' = true ↔ c' = c.
Proof. unfold lit. rewrite Ascii.eqb_eq. naive_solver. Qed.

Lemma head_app p s t : s ≠ "" → head_is p (s +:+ t) = head_is p s.
Proof. by destruct s. Qed.

Lemma count_field_head a t :
  count_field a → head_is isspace (a +:+ t) = false.
Proof.
  intros [->|[Ha Hd]]; [done|]. rewrite head_app by done.
  destruct a as [|c a]; [done|]. simpl in *.
  apply andb_prop in Hd as [Hc _]. by apply digit_not_space.
Qed.

Lemma blank_head w t : blank w → head_is isspace (w +:+ t) = true.
Proof.
  intros [Hw Hs]. rewrite head_app by done. destruct w as [|c w]; [done|].
  simpl in *. by apply andb_prop in Hs as [-> _].
Qed.

Lemma blank_head_digit w t : blank w → head_is digit (w +:+ t) = false.
Proof.
  intros [Hw Hs]. rewrite head_app by done. destruct w as [|c w]; [done|].
  simpl in *. apply andb_prop in Hs as [Hc _]. by apply space_not_digit.
Qed.

(** A count group that succeeds consumed a count field. *)
Lemma count_group_Some i s caps k m :
  exec (Group i count_re) s caps k = Some m →
  ∃ a r, s = a +:+ r ∧ count_field a ∧ k r (<[i := a]> caps) = Some m.
Proof.
  unfold count_re. cbn [exec].
  destruct (plus digit s _) as [m'|] eqn:E.
  - intros [= ->]. apply plus_Some in E as (a & r & -> & Ha & Hd & Hk).
    rewrite consumed_app in Hk. exists a, r.
    split; [reflexivity|]. split; [|exact Hk]. right. split; [exact Ha|exact Hd].
  - destruct s as [|c s]; [done|]. destruct (lit "-" c) eqn:El; [|done].
    apply lit_eq in El as ->. intros Hk.
    change (String "-" s) with ("-" +:+ s) in Hk. rewrite consumed_app in Hk.
    exists "-", s. split; [reflexivity|]. split; [|exact Hk]. by left.
Qed.

(** A count field followed by something that is not a digit is consumed whole. *)
Lemma count_group_intro i a r caps k m :
  count_field a → head_is digit r = false →
  k r (<[i := a]> caps) = Some m →
  exec (Group i count_re) (a +:+ r) caps k = Some m.
Proof.
  intros Ha Hr Hk. unfold count_re. cbn [exec]. destruct Ha as [->|[Ha Hd]].
  - change ("-" +:+ r) with (String "-" r). cbn [plus digit isdigit lit Ascii.eqb Bool.eqb].
    change (String "-" r) with ("-" +:+ r). by rewrite consumed_app.
  - erewrite plus_longest; [done| |].
    + rewrite head_app by done. destruct a as [|c a]; [done|]. simpl in *.
      apply andb_prop in Hd as [Hc _]. exact Hc.
    + rewrite dropwhile_app by done. by rewrite consumed_app.
Qed.

Lemma blank_Some s caps k m :
  exec (Plus space) s caps k = Some m →
  ∃ w r, s = w +:+ r ∧ blank w ∧ k r caps = Some m.
Proof.
  simpl. intros (w & r & -> & Hw & Hs & Hk)%plus_Some. by exists w, r.
Qed.

Lemma blank_intro w r caps k m :
  blank w → head_is space r = false → k r caps = Some m →
  exec (Plus space) (w +:+ r) caps k = Some m.
Proof.
  intros Hw Hr Hk. simpl. apply plus_longest.
  - by apply blank_head.
  - destruct Hw as [_ Hw]. by rewrite dropwhile_app.
Qed.

Lemma all_dot s : all_chars dot s = negb (contains newline s).
Proof.
  induction s as [|c s IH]; [done|]. simpl. rewrite IH. unfold dot.
  by rewrite negb_orb.
Qed.

(** On a line without a newline the last group takes all that is left. *)
Lemma path_group s caps :
  contains newline s = false →
  exec (Group 3 (Plus dot)) s caps finish
  = match s with "" => None | _ => Some (<[3 := s]> caps) end.
Proof.
  intros Hs. simpl. destruct s as [|c s]; [done|].
  assert (Hd : all_chars dot (String c s) = true) by (by rewrite all_dot, Hs).
  erewrite plus_longest; [reflexivity|..].
  - simpl in *. by apply andb_prop in Hd as [-> _].
  - cbv beta. rewrite dropwhile_all by done. unfold finish. by rewrite consumed_all.
Qed.

End PatternFacts.

Module NumstatFacts.
Import Py Re PyFacts ReFacts PatternFacts.

Lemma exec_seq r1 r2 s caps k :
  exec (Seq r1 r2) s caps k = exec r1 s caps (λ s' caps', exec r2 s' caps' k).
Proof. reflexivity. Qed.

Lemma pattern_eq :
  pattern = Seq (Group 1 count_re) (Seq (Plus space)
           (Seq (Group 2 count_re) (Seq (Plus space) (Group 3 (Plus dot))))).
Proof. reflexivity. Qed.

Lemma str_app_not_nil s t : s ≠ "" → s +:+ t ≠ "".
Proof. by destruct s. Qed.

Lemma blank_app w v : blank w → all_chars isspace v = true → blank (w +:+ v).
Proof.
  intros [Hw Hs] Hv. split; [by apply str_app_not_nil|].
  by rewrite all_chars_app, Hs, Hv.
Qed.

Lemma last_char s : s ≠ "" → ∃ init c, s = init +:+ String c "".
Proof.
  induction s as [|c s IH]; [done|]. intros _. destruct s as [|c' s].
  - by exists "", c.
  - destruct IH as (init & c0 & ->); [done|]. by exists (String c init), c0.
Qed.

(** Every way of reading a line as a numstat line, on a line without a
    newline, leads to the reading in which the white space before the path is
    as long as it can be. *)
Lemma canonical w2 p :
  blank w2 → p ≠ "" →
  ∃ w2' p', w2 +:+ p = w2' +:+ p' ∧ blank w2' ∧ p' ≠ "" ∧
            (head_is isspace p' = false ∨ String.length p' = 1).
Proof.
  intros Hw Hp. destruct (dropwhile isspace p) as [|c r] eqn:E.
  - pose proof (takewhile_dropwhile isspace p) as Hsplit.
    rewrite E, str_app_nil_r in Hsplit.
    destruct (last_char p Hp) as (init & c & ->).
    exists (w2 +:+ init), (String c "").
    split; [by rewrite str_app_assoc|]. split; [|split; [done|by right]].
    apply blank_app; [done|].
    pose proof (all_takewhile isspace (init +:+ String c "")) as Hall.
    rewrite Hsplit, all_chars_app in Hall. by apply andb_prop in Hall as [-> _].
  - exists (w2 +:+ takewhile isspace p), (String c r).
    split; [|split; [|split; [done|left]]].
    + by rewrite str_app_assoc, <-E, takewhile_dropwhile.
    + apply blank_app; [done|]. apply all_takewhile.
    + rewrite <-E. apply head_dropwhile.
Qed.

Lemma pattern_sound line m :
  contains newline line = false →
  match_ pattern line = Some m →
  ∃ a w1 d w2 p,
    line = a +:+ w1 +:+ d +:+ w2 +:+ p ∧
    count_field a ∧ blank w1 ∧ count_field d ∧ blank w2 ∧ p ≠ "" ∧
    m = stat_captures a d p.
Proof.
  intros Hnl H. unfold match_ in H. rewrite pattern_eq, exec_seq in H.
  apply count_group_Some in H as (a & r1 & -> & Ha & H).
  rewrite exec_seq in H. apply blank_Some in H as (w1 & r2 & -> & Hw1 & H).
  rewrite exec_seq in H. apply count_group_Some in H as (d & r3 & -> & Hd & H).
  rewrite exec_seq in H. apply blank_Some in H as (w2 & p & -> & Hw2 & H).
  rewrite !contains_app in Hnl.
  repeat (apply orb_false_elim in Hnl as [? Hnl]).
  change (λ (_ : string) (caps : captures), Some caps) with finish in H.
  rewrite path_group in H by done.
  exists a, w1, d, w2, p. destruct p as [|c p]; [done|].
  apply (inj Some) in H as <-. by split_and!.
Qed.

Lemma pattern_complete a w1 d w2 p :
  contains newline p = false →
  count_field a → blank w1 → count_field d → blank w2 → p ≠ "" →
  head_is isspace p = false ∨ String.length p = 1 →
  match_ pattern (a +:+ w1 +:+ d +:+ w2 +:+ p) = Some (stat_captures a d p).
Proof.
  intros Hnl Ha Hw1 Hd Hw2 Hp Hcan. unfold match_.
  rewrite pattern_eq, exec_seq.
  apply count_group_intro; [done|by apply blank_head_digit|].
  rewrite exec_seq. apply blank_intro; [done|by apply count_field_head|].
  rewrite exec_seq.
  apply count_group_intro; [done|by apply blank_head_digit|].
  rewrite exec_seq.
  change (λ (_ : string) (caps : captures), Some caps) with finish.
  destruct (head_is isspace p) eqn:Eh.
  - destruct Hcan as [?|Hlen]; [done|].
    destruct p as [|c [|c' p]]; try done. simpl in Eh.
    destruct w2 as [|c2 w2]; [by destruct Hw2|].
    destruct Hw2 as [_ Hw2]. simpl in Hw2. apply andb_prop in Hw2 as [Hc2 Hw2].
    cbn [exec]. rewrite str_app_cons. cbn [plus]. unfold space at 1. rewrite Hc2.
    apply star_give_back; [done|done|done|].
    pose proof (path_group (String c "") (<[2:=d]> (<[1:=a]> ∅)) Hnl) as Hpg.
    cbn [exec] in Hpg. exact Hpg.
  - apply blank_intro; [done|done|].
    rewrite path_group by done. by destruct p.
Qed.

(** What the loop body appends for one line. *)
Lemma stats_step_app acc line : stats_step acc line = acc ++ stats_step [] line.
Proof. unfold stats_step. destruct (match_ pattern line); [done|by rewrite app_nil_r]. Qed.

Lemma foldl_stats_step lines acc :
  foldl stats_step acc lines = acc ++ concat (map (stats_step []) lines).
Proof.
  revert acc. induction lines as [|line lines IH]; intros acc; simpl.
  - by rewrite app_nil_r.
  - rewrite IH, (stats_step_app acc line). by rewrite <-app_assoc.
Qed.

Lemma group_stat_captures a d p :
  group (stat_captures a d p) 1 = a ∧ group (stat_captures a d p) 2 = d ∧
  group (stat_captures a d p) 3 = p.
Proof. done. Qed.

Lemma stats_step_shape line a d p :
  contains newline line = false →
  stats_step [] line = [DiffStat p a d] ↔ numstat_shape line a d p.
Proof.
  intros Hnl. split.
  - unfold stats_step. destruct (match_ pattern line) as [m|] eqn:E; [|done].
    destruct (pattern_sound _ _ Hnl E) as (a0 & w1 & d0 & w2 & p0 & -> & Ha & Hw1 & Hd & Hw2 & Hp & ->).
    destruct (canonical w2 p0 Hw2 Hp) as (w2' & p' & Heq & Hw2' & Hp' & Hcan).
    rewrite Heq in E, Hnl.
    assert (Hnl' : contains newline p' = false).
    { rewrite !contains_app in Hnl. repeat (apply orb_false_elim in Hnl as [? Hnl]). done. }
    rewrite (pattern_complete a0 w1 d0 w2' p') in E by done.
    apply (inj Some) in E.
    assert (p' = p0) as ->.
    { apply (f_equal (λ m, group m 3)) in E. exact E. }
    simpl. intros [= <- <- <-]. exists w1, w2'. rewrite Heq. by split_and!.
  - intros (w1 & w2 & -> & Ha & Hw1 & Hd & Hw2 & Hp & Hcan).
    assert (Hnl' : contains newline p = false).
    { rewrite !contains_app in Hnl. repeat (apply orb_false_elim in Hnl as [? Hnl]). done. }
    unfold stats_step. by rewrite pattern_complete.
Qed.

Lemma stats_step_cases line :
  stats_step [] line = [] ∨ ∃ a d p, stats_step [] line = [DiffStat p a d].
Proof.
  unfold stats_step. destruct (match_ pattern line); [right|by left].
  by eexists _, _, _.
Qed.

End NumstatFacts.

Module ReaderFacts.
Import Py PyFacts.

Section World.
Context (w : World).

Lemma run_ok args h :
  faults w h args = None →
  returncode (process w h args) = 0%Z →
  run w args h = (Return (process w h args), h ++ [Run args]).
Proof. intros Hf H. unfold run. by rewrite Hf, H. Qed.

Lemma run_other args h cls text :
  faults w h args = Some (cls, text) →
  run w args h = (Raise (OtherError cls text), h ++ [Run args]).
Proof. intros Hf. unfold run. by rewrite Hf. Qed.

Lemma run_fail args h :
  faults w h args = None →
  returncode (process w h args) ≠ 0%Z →
  run w args h
  = (Raise (CalledProcessError args (returncode (process w h args))
                               (stderr (process w h args))), h ++ [Run args]).
Proof. intros Hf H. unfold run. rewrite Hf. by apply Z.eqb_neq in H as ->. Qed.

Lemma commits_step_summary commits line :
  commits_step commits line = commits ++ option_list (summary_of_line line).
Proof.
  unfold commits_step, summary_of_line.
  destruct (String.eqb_spec line "") as [->|_]; [by rewrite app_nil_r|].
  destruct (split "|" line) as [|? [|? [|? [|? [|? ?]]]]]; simpl;
    by rewrite ?app_nil_r.
Qed.

Lemma foldl_commits_step lines commits :
  foldl commits_step commits lines = commits ++ omap summary_of_line lines.
Proof.
  revert commits. induction lines as [|line lines IH]; intros commits; simpl.
  - by rewrite app_nil_r.
  - rewrite IH, commits_step_summary.
    destruct (summary_of_line line); simpl; by rewrite <-?app_assoc, ?app_nil_r.
Qed.

Lemma get_recent_commits_ok n h :
  faults w h (log_cmd n) = None →
  returncode (process w h (log_cmd n)) = 0%Z →
  get_recent_commits w n h
  = (Return (omap summary_of_line (output_lines (process w h (log_cmd n)))),
     h ++ [Run (log_cmd n)]).
Proof.
  intros Hf H. unfold get_recent_commits, try_except, mbind, M_bind.
  fold (log_cmd n). rewrite (run_ok _ _ Hf H). unfold mret, M_ret.
  by rewrite foldl_commits_step.
Qed.

Lemma get_recent_commits_fail n h :
  faults w h (log_cmd n) = None →
  returncode (process w h (log_cmd n)) ≠ 0%Z →
  get_recent_commits w n h
  = (Return [],
     h ++ [Run (log_cmd n);
           Printed ("Error retrieving commits: "
                  +:+ strip (stderr (process w h (log_cmd n))))]).
Proof.
  intros Hf H. unfold get_recent_commits, try_except, mbind, M_bind.
  fold (log_cmd n). rewrite (run_fail _ _ Hf H).
  unfold print, emit, mret, M_ret. by rewrite <-app_assoc.
Qed.

(** An exception of another class is not caught. *)
Lemma get_recent_commits_other n h cls text :
  faults w h (log_cmd n) = Some (cls, text) →
  get_recent_commits w n h = (Raise (OtherError cls text), h ++ [Run (log_cmd n)]).
Proof.
  intros Hf. unfold get_recent_commits, try_except, mbind, M_bind.
  fold (log_cmd n). by rewrite (run_other _ _ _ _ Hf).
Qed.

Lemma summary_of_line_length line :
  is_Some (summary_of_line line) ↔ length (split "|" line) = 4.
Proof.
  unfold summary_of_line.
  destruct (split "|" line) as [|? [|? [|? [|? [|? ?]]]]]; simpl;
    split; try done; try by intros [? ?]. 
Qed.

End World.
End ReaderFacts.

Module FetcherFacts.
Import Py PyFacts ReaderFacts NumstatFacts.

Section World.
Context (w : World).

Section Fetch.
Context (commit_hash : string) (h : history).

Let c1 := show_cmd "--format=%B" commit_hash.
Let c2 := show_cmd "--name-status" commit_hash.
Let c3 := show_cmd "--numstat" commit_hash.
Let p1 := process w h c1.
Let p2 := process w (h ++ [Run c1]) c2.
Let p3 := process w (h ++ [Run c1; Run c2]) c3.

Lemma fetch_unfold :
  get_commit_details w commit_hash h
  = try_except
      (message ← run w c1;
       changes ← run w c2;
       num_stats ← run w c3;
       let diff_stats :=
         foldl stats_step [] (split newline (strip (stdout num_stats))) in
       mret ({[ "hash" := VStr commit_hash;
                "full_message" := VStr (strip (stdout message));
                "changes" := VStr (strip (stdout changes));
                "diff_stats" := VList diff_stats ]} : dict))
      (λ e, match e with
            | CalledProcessError _ _ err =>
                Some (_ ← print (detail_error commit_hash err); mret (∅ : dict))
            | _ => None
            end) h.
Proof. reflexivity. Qed.

Lemma h2_eq : (h ++ [Run c1]) ++ [Run c2] = h ++ [Run c1; Run c2].
Proof. by rewrite <-app_assoc. Qed.

Lemma fetch_fail_message :
  faults w h c1 = None → returncode p1 ≠ 0%Z →
  get_commit_details w commit_hash h
  = (Return ∅, h ++ [Run c1; Printed (detail_error commit_hash (stderr p1))]).
Proof.
  intros F1 H. rewrite fetch_unfold. unfold try_except, mbind, M_bind.
  rewrite (run_fail w c1 h F1 H). unfold print, emit, mret, M_ret.
  by rewrite <-app_assoc.
Qed.

Lemma fetch_other_message cls text :
  faults w h c1 = Some (cls, text) →
  get_commit_details w commit_hash h = (Raise (OtherError cls text), h ++ [Run c1]).
Proof.
  intros F1. rewrite fetch_unfold. unfold try_except, mbind, M_bind.
  by rewrite (run_other w c1 h _ _ F1).
Qed.

Lemma fetch_fail_changes :
  faults w h c1 = None → returncode p1 = 0%Z →
  faults w (h ++ [Run c1]) c2 = None → returncode p2 ≠ 0%Z →
  get_commit_details w commit_hash h
  = (Return ∅, h ++ [Run c1; Run c2; Printed (detail_error commit_hash (stderr p2))]).
Proof.
  intros F1 H1 F2 H2. rewrite fetch_unfold. unfold try_except, mbind, M_bind.
  rewrite (run_ok w c1 h F1 H1), (run_fail w c2 _ F2 H2).
  unfold print, emit, mret, M_ret. by rewrite <-!app_assoc.
Qed.

Lemma fetch_other_changes cls text :
  faults w h c1 = None → returncode p1 = 0%Z →
  faults w (h ++ [Run c1]) c2 = Some (cls, text) →
  get_commit_details w commit_hash h
  = (Raise (OtherError cls text), h ++ [Run c1; Run c2]).
Proof.
  intros F1 H1 F2. rewrite fetch_unfold. unfold try_except, mbind, M_bind.
  rewrite (run_ok w c1 h F1 H1), (run_other w c2 _ _ _ F2). by rewrite h2_eq.
Qed.

Lemma fetch_fail_numstat :
  faults w h c1 = None → returncode p1 = 0%Z →
  faults w (h ++ [Run c1]) c2 = None → returncode p2 = 0%Z →
  faults w (h ++ [Run c1; Run c2]) c3 = None → returncode p3 ≠ 0%Z →
  get_commit_details w commit_hash h
  = (Return ∅,
     h ++ [Run c1; Run c2; Run c3; Printed (detail_error commit_hash (stderr p3))]).
Proof.
  intros F1 H1 F2 H2 F3 H3. rewrite fetch_unfold. unfold try_except, mbind, M_bind.
  rewrite (run_ok w c1 h F1 H1), (run_ok w c2 _ F2 H2), h2_eq, (run_fail w c3 _ F3 H3).
  unfold print, emit, mret, M_ret. by rewrite <-!app_assoc.
Qed.

Lemma fetch_other_numstat cls text :
  faults w h c1 = None → returncode p1 = 0%Z →
  faults w (h ++ [Run c1]) c2 = None → returncode p2 = 0%Z →
  faults w (h ++ [Run c1; Run c2]) c3 = Some (cls, text) →
  get_commit_details w commit_hash h
  = (Raise (OtherError cls text), h ++ [Run c1; Run c2; Run c3]).
Proof.
  intros F1 H1 F2 H2 F3. rewrite fetch_unfold. unfold try_except, mbind, M_bind.
  rewrite (run_ok w c1 h F1 H1), (run_ok w c2 _ F2 H2), h2_eq,
    (run_other w c3 _ _ _ F3).
  by rewrite <-!app_assoc.
Qed.

Lemma fetch_ok :
  faults w h c1 = None → returncode p1 = 0%Z →
  faults w (h ++ [Run c1]) c2 = None → returncode p2 = 0%Z →
  faults w (h ++ [Run c1; Run c2]) c3 = None → returncode p3 = 0%Z →
  get_commit_details w commit_hash h
  = (Return (CommitDetail commit_hash (strip (stdout p1)) (strip (stdout p2))
                          (parsed_stats p3)),
     h ++ [Run c1; Run c2; Run c3]).
Proof.
  intros F1 H1 F2 H2 F3 H3. rewrite fetch_unfold. unfold try_except, mbind, M_bind.
  rewrite (run_ok w c1 h F1 H1), (run_ok w c2 _ F2 H2), h2_eq, (run_ok w c3 _ F3 H3).
  unfold mret, M_ret. rewrite foldl_stats_step. simpl.
  by rewrite <-!app_assoc.
Qed.

Lemma run_ending args h' :
  run w args h'
  = (match ending_of w h' args with
     | Completed result => Return result
     | Failed code err => Raise (CalledProcessError args code err)
     | Escaped cls text => Raise (OtherError cls text)
     end, h' ++ [Run args]).
Proof.
  unfold run, ending_of. destruct (faults w h' args) as [[cls text]|]; [done|].
  simpl. by destruct (returncode (process w h' args) =? 0)%Z.
Qed.

(** Every fetch goes one of the seven ways. *)
Lemma fetch_cases :
  ∃ o evs,
    get_commit_details w commit_hash h = (o, h ++ evs) ∧
    fetch_result w commit_hash h o evs.
Proof.
  rewrite fetch_unfold. unfold try_except, mbind, M_bind.
  fold (message_cmd commit_hash) in *. fold (changes_cmd commit_hash) in *.
  fold (numstat_cmd commit_hash) in *.
  change c1 with (message_cmd commit_hash). change c2 with (changes_cmd commit_hash).
  change c3 with (numstat_cmd commit_hash).
  rewrite run_ending.
  destruct (ending_of w h (message_cmd commit_hash)) as [m|code err|cls text] eqn:E1.
  2:{ eexists _, _. split; [|by eapply message_failed].
      unfold print, emit, mret, M_ret. by rewrite <-app_assoc. }
  2:{ eexists _, _. split; [done|by eapply message_escaped]. }
  rewrite run_ending.
  destruct (ending_of w (h ++ [Run (message_cmd commit_hash)]) (changes_cmd commit_hash))
    as [c|code err|cls text] eqn:E2.
  2:{ eexists _, _. split; [|by eapply changes_failed].
      unfold print, emit, mret, M_ret. by rewrite <-!app_assoc. }
  2:{ eexists _, _. split; [|by eapply changes_escaped]. by rewrite <-!app_assoc. }
  rewrite <-app_assoc. simpl. rewrite run_ending.
  destruct (ending_of w (h ++ [Run (message_cmd commit_hash); Run (changes_cmd commit_hash)])
              (numstat_cmd commit_hash)) as [n|code err|cls text] eqn:E3.
  2:{ eexists _, _. split; [|by eapply numstat_failed].
      unfold print, emit, mret, M_ret. by rewrite <-!app_assoc. }
  2:{ eexists _, _. split; [|by eapply numstat_escaped]. by rewrite <-!app_assoc. }
  eexists _, _. split; [|by eapply all_completed].
  unfold mret, M_ret. rewrite foldl_stats_step. simpl. by rewrite <-!app_assoc.
Qed.

End Fetch.

End World.
End FetcherFacts.

Module PromptFacts.
Import Py PyFacts.

Section Repr.
Context (repr : list diff_stat → string).

Lemma add_stats_list prompt l :
  add_stats prompt (VList l) = Return (prompt +:+ stats_text l).
Proof.
  unfold add_stats. revert prompt. induction l as [|st l IH]; intros prompt; simpl.
  - by rewrite str_app_nil_r.
  - unfold mbind, outcome_bind, mret, outcome_ret at 1. rewrite IH.
    by rewrite str_app_assoc.
Qed.

Lemma add_commit_text prompt (c : dict) commit_hash author date message
    (full_message : option string) (stats : option (list diff_stat)) :
  c !! "hash" = Some (VStr commit_hash) →
  c !! "author" = Some (VStr author) →
  c !! "date" = Some (VStr date) →
  c !! "message" = Some (VStr message) →
  c !! "full_message" = VStr <$> full_message →
  c !! "diff_stats" = VList <$> stats →
  add_commit repr prompt c
  = Return (prompt +:+ commit_text commit_hash author date message
                                   full_message (default [] stats)).
Proof.
  intros Hh Ha Hd Hm Hf Hs. unfold add_commit, getitem.
  rewrite Hh, Ha, Hd, Hm, Hf, Hs.
  unfold mbind, outcome_bind, mret, outcome_ret, commit_text, header_text. simpl.
  assert (Hstats :
    ∀ p, match VList <$> stats with
         | Some diff_stats =>
             if truthy diff_stats then add_stats p diff_stats else Return p
         | None => Return p
         end = Return (p +:+ stats_text (default [] stats))).
  { intros p. destruct stats as [[|st l]|]; simpl.
    - by rewrite str_app_nil_r.
    - apply (add_stats_list p (st :: l)).
    - by rewrite str_app_nil_r. }
  destruct full_message as [fm|]; simpl.
  - destruct (decide (VStr fm ≠ VStr message)) as [Hne|Heq].
    + rewrite Hstats. destruct (decide (fm = message)) as [->|_]; [done|].
      by rewrite !str_app_assoc.
    + rewrite Hstats. destruct (decide (fm = message)) as [_|Hne].
      * by rewrite !str_app_assoc.
      * destruct Heq. congruence.
  - rewrite Hstats. by rewrite !str_app_assoc.
Qed.

End Repr.
End PromptFacts.

Module PipelineFacts.
Import Py PyFacts ReaderFacts FetcherFacts PromptFacts.

Lemma summary_lookup h a d m :
  CommitSummary h a d m !! "hash" = Some (VStr h) ∧
  CommitSummary h a d m !! "author" = Some (VStr a) ∧
  CommitSummary h a d m !! "date" = Some (VStr d) ∧
  CommitSummary h a d m !! "message" = Some (VStr m) ∧
  CommitSummary h a d m !! "full_message" = None ∧
  CommitSummary h a d m !! "diff_stats" = None.
Proof. done. Qed.

Lemma merged_lookup h a d m h' fm ch ds :
  let c := merge (CommitSummary h a d m) (CommitDetail h' fm ch ds) in
  c !! "hash" = Some (VStr h') ∧
  c !! "author" = Some (VStr a) ∧
  c !! "date" = Some (VStr d) ∧
  c !! "message" = Some (VStr m) ∧
  c !! "full_message" = Some (VStr fm) ∧
  c !! "diff_stats" = Some (VList ds).
Proof. done. Qed.

Lemma merge_empty (c : dict) : merge c ∅ = c.
Proof. unfold merge. apply (left_id_L ∅ (∪)). Qed.

End PipelineFacts.

Module LoopFacts.
Import Py PyFacts ReaderFacts FetcherFacts PromptFacts PipelineFacts.

Section World.
Context (w : World) (repr : list diff_stat → string).

(** What every way of a fetch has in common. *)
Lemma fetch_result_quiet commit_hash h o evs :
  fetch_result w commit_hash h o evs → quiet evs.
Proof. intros []; by repeat constructor. Qed.

Lemma fetch_result_head commit_hash h o evs :
  fetch_result w commit_hash h o evs →
  ∃ evs', evs = Run (message_cmd commit_hash) :: evs'.
Proof. intros []; by eexists. Qed.

Lemma fetch_result_return commit_hash h d evs :
  fetch_result w commit_hash h (Return d) evs →
  d = ∅ ∨ ∃ fm ch ds, d = CommitDetail commit_hash fm ch ds.
Proof. inversion 1; subst; [by left..|right; by eexists _, _, _]. Qed.

Lemma ending_escaped h args cls text :
  ending_of w h args = Escaped cls text → faults w h args = Some (cls, text).
Proof.
  unfold ending_of. destruct (faults w h args) as [[c t]|]; [by intros [= -> ->]|].
  simpl. by destruct (returncode (process w h args) =? 0)%Z.
Qed.

Lemma fetch_result_raise commit_hash h e evs :
  fetch_result w commit_hash h (Raise e) evs → from_git w e.
Proof.
  inversion 1; subst; eexists _, _, _, _; (split; [reflexivity|]);
    by eapply ending_escaped.
Qed.

Lemma ending_git_runs h args :
  git_runs w → ∀ cls text, ending_of w h args ≠ Escaped cls text.
Proof.
  intros Hg cls text Hesc%ending_escaped. by rewrite (Hg h args) in Hesc.
Qed.

Lemma fetch_result_git_runs commit_hash h o evs :
  git_runs w → fetch_result w commit_hash h o evs → ∃ d, o = Return d.
Proof.
  intros Hg Hr. destruct o as [d|e]; [by exists d|].
  apply fetch_result_raise in Hr as (cls & text & h' & args & _ & Hf).
  by rewrite (Hg h' args) in Hf.
Qed.

(** One step of the loop over the commits. *)
Lemma detail_step_cases acc (r : row) h :
  ∃ o evs,
    fetch_result w (hash_of_row r) h o evs ∧
    detail_step w acc (summary_of_row r) h
    = (match o with
       | Return d => Return (acc ++ [merge (summary_of_row r) d])
       | Raise e => Raise e
       end, h ++ evs).
Proof.
  destruct r as [[[ch a] d] m].
  destruct (fetch_cases w ch h) as (o & evs & Heq & Hres).
  exists o, evs. split; [done|].
  unfold detail_step, lift, getitem, mbind, M_bind. simpl.
  destruct (summary_lookup ch a d m) as (-> & _). rewrite Heq. by destruct o.
Qed.

Lemma enriched_merge (r : row) d :
  d = ∅ ∨ (∃ fm ch ds, d = CommitDetail (hash_of_row r) fm ch ds) →
  enriched r (merge (summary_of_row r) d).
Proof.
  intros [->|(fm & ch & ds & ->)].
  - left. apply merge_empty.
  - right. by exists fm, ch, ds.
Qed.

(** The loop: it returns the enriched commits, having started a fetch for
    each, or it raises what a call of git raised. *)
Lemma detail_loop (rows : list row) acc h :
  ∃ o evs,
    for_each (detail_step w) (map summary_of_row rows) acc h = (o, h ++ evs) ∧
    quiet evs ∧
    ((∃ cs, o = Return (acc ++ cs) ∧ Forall2 enriched rows cs ∧
            ∀ r, r ∈ rows → Run (message_cmd (hash_of_row r)) ∈ evs) ∨
     (∃ e, o = Raise e ∧ from_git w e)).
Proof.
  revert acc h. induction rows as [|r rows IH]; intros acc h.
  - exists (Return acc), []. simpl. unfold mret, M_ret. rewrite !app_nil_r.
    split_and!; [done|constructor|]. left. exists [].
    rewrite app_nil_r. split_and!; [done|constructor|]. by intros r ?%elem_of_nil.
  - destruct (detail_step_cases acc r h) as (o1 & evs1 & Hres & Hstep).
    pose proof (fetch_result_quiet _ _ _ _ Hres) as Hq1.
    destruct o1 as [d|e].
    + destruct (IH (acc ++ [merge (summary_of_row r) d]) (h ++ evs1))
        as (o & evs2 & Hloop & Hq2 & Hcases).
      exists o, (evs1 ++ evs2). split_and!.
      * simpl. unfold mbind, M_bind. rewrite Hstep.
        fold (@for_each dict (list dict)). rewrite Hloop. by rewrite <-!app_assoc.
      * by apply Forall_app.
      * destruct Hcases as [(cs & -> & Hcs & Hin)|(e & -> & He)]; [left|right].
        -- exists (merge (summary_of_row r) d :: cs). split_and!.
           ++ by rewrite <-app_assoc.
           ++ constructor; [|done].
              apply enriched_merge. by apply (fetch_result_return _ _ _ _ Hres).
           ++ intros r' [->|Hr']%elem_of_cons.
              ** destruct (fetch_result_head _ _ _ _ Hres) as (evs' & ->). left.
              ** apply elem_of_app. right. auto.
        -- by exists e.
    + exists (Raise e), evs1. split_and!.
      * simpl. unfold mbind, M_bind. by rewrite Hstep.
      * done.
      * right. exists e. split; [done|]. by apply (fetch_result_raise _ _ _ _ Hres).
Qed.

Lemma detail_loop_returns (rows : list row) h cs h' :
  for_each (detail_step w) (map summary_of_row rows) [] h = (Return cs, h') →
  ∃ evs, h' = h ++ evs ∧ quiet evs ∧ Forall2 enriched rows cs ∧
         ∀ r, r ∈ rows → Run (message_cmd (hash_of_row r)) ∈ evs.
Proof.
  intros Hloop.
  destruct (detail_loop rows [] h) as (o & evs & Heq & Hq & Hcases).
  rewrite Hloop in Heq. injection Heq as <- ->. exists evs.
  destruct Hcases as [(cs' & [= ->] & Hcs & Hin)|(e & [=] & _)]. done.
Qed.



(** The text an enriched commit adds to the prompt. *)
Lemma add_commit_enriched_text prompt (r : row) c :
  enriched r c → add_commit repr prompt c = Return (prompt +:+ text_of_commit c).
Proof.
  destruct r as [[[ch a] d] m]. intros [->|(fm & chg & ds & ->)].
  - destruct (summary_lookup ch a d m) as (H1 & H2 & H3 & H4 & H5 & H6).
    by rewrite (add_commit_text repr prompt _ ch a d m None None).
  - destruct (merged_lookup ch a d m ch fm chg ds) as (H1 & H2 & H3 & H4 & H5 & H6).
    by rewrite (add_commit_text repr prompt _ ch a d m (Some fm) (Some ds)).
Qed.

(** The loop of the Prompt Builder over commits whose texts are known. *)
Lemma for_each_texts cs texts prompt :
  Forall2 (λ c text, ∀ p, add_commit repr p c = Return (p +:+ text)) cs texts →
  for_each_pure (add_commit repr) cs prompt = Return (prompt +:+ concat_text texts).
Proof.
  intros H. revert prompt. induction H as [|c text cs texts Hc _ IH]; intros prompt.
  - simpl. by rewrite str_app_nil_r.
  - simpl. rewrite Hc. unfold mbind, outcome_bind. rewrite IH.
    by rewrite str_app_assoc.
Qed.

Lemma enriched_texts (rows : list row) cs :
  Forall2 enriched rows cs →
  Forall2 (λ c text, ∀ p, add_commit repr p c = Return (p +:+ text))
    cs (map text_of_commit cs).
Proof.
  induction 1 as [|r c rows cs Hc _ IH]; simpl; constructor; [|done].
  intros p. by apply (add_commit_enriched_text p r).
Qed.

Lemma concat_text_app t1 t2 : concat_text (t1 ++ t2) = concat_text t1 +:+ concat_text t2.
Proof.
  induction t1 as [|t t1 IH]; [done|]. simpl. by rewrite IH, str_app_assoc.
Qed.

Lemma body_text_concat cs : body_text cs = concat_text (map text_of_commit cs).
Proof. induction cs as [|c cs IH]; [done|]. simpl. by rewrite IH. Qed.

Lemma prepare_prompt_text (rows : list row) cs :
  Forall2 enriched rows cs →
  prepare_prompt repr cs = Return (preamble +:+ body_text cs +:+ closing).
Proof.
  intros H. unfold prepare_prompt.
  rewrite (for_each_texts cs _ _ (enriched_texts rows cs H)).
  unfold mbind, outcome_bind, mret, outcome_ret.
  by rewrite body_text_concat, str_app_assoc.
Qed.

Lemma omap_cons {A B} (f : A → option B) x l :
  omap f (x :: l) = match f x with Some y => y :: omap f l | None => omap f l end.
Proof. reflexivity. Qed.

Lemma summaries_rows lines :
  ∃ rows : list row, omap summary_of_line lines = map summary_of_row rows.
Proof.
  induction lines as [|line lines (rows & IH)]; [by exists []|].
  rewrite omap_cons, IH. unfold summary_of_line.
  destruct (split "|" line) as [|ch [|a [|d [|m [|? ?]]]]]; try by exists rows.
  by exists ((ch, a, d, m) :: rows).
Qed.

(** The History Reader returns summaries or raises what the call of git
    raised; it leaves the service alone and does at least one thing. *)
Lemma get_recent_commits_cases n h :
  ∃ o evs,
    get_recent_commits w n h = (o, h ++ evs) ∧ quiet evs ∧ evs ≠ [] ∧
    ((∃ rows : list row, o = Return (map summary_of_row rows)) ∨
     (∃ e, o = Raise e ∧ from_git w e)).
Proof.
  destruct (faults w h (log_cmd n)) as [[cls text]|] eqn:F.
  { rewrite (get_recent_commits_other w n h _ _ F).
    eexists _, [_]. split_and!; [done|by repeat constructor|done|].
    right. eexists. split; [done|]. by eexists _, _, _, _. }
  destruct (decide (returncode (process w h (log_cmd n)) = 0%Z)) as [H|H].
  - rewrite (get_recent_commits_ok w n h F H).
    destruct (summaries_rows (output_lines (process w h (log_cmd n)))) as (rows & ->).
    eexists _, [_]. split_and!; [done|by repeat constructor|done|]. left. by exists rows.
  - rewrite (get_recent_commits_fail w n h F H).
    eexists _, [_; _]. split_and!; [done|by repeat constructor|done|]. left. by exists [].
Qed.

Lemma get_recent_commits_returns n h commits h1 :
  get_recent_commits w n h = (Return commits, h1) →
  ∃ (rows : list row) evs,
    commits = map summary_of_row rows ∧ h1 = h ++ evs ∧ quiet evs ∧ evs ≠ [].
Proof.
  intros Hget.
  destruct (get_recent_commits_cases n h) as (o & evs & Heq & Hq & Hne & Hcases).
  rewrite Hget in Heq. injection Heq as <- ->.
  destruct Hcases as [(rows & [= ->])|(e & [=] & _)]. by exists rows, evs.
Qed.

(** A run with a non-empty history whose loop returns: the prompt is built
    from what the loop returned, the service is asked once, and its answer
    decides the result. *)
Lemma generate_changelog_asks n h commits h1 cs h2 :
  get_recent_commits w n h = (Return commits, h1) → commits ≠ [] →
  for_each (detail_step w) commits [] h1 = (Return cs, h2) →
  generate_changelog w repr n h
  = (outcome_of_reply
       (service w h2 (chat_request (preamble +:+ body_text cs +:+ closing))),
     h2 ++ [Create (chat_request (preamble +:+ body_text cs +:+ closing))]).
Proof.
  intros Hget Hne Hloop.
  destruct (get_recent_commits_returns n h _ _ Hget) as (rows & evs0 & -> & -> & _).
  destruct (detail_loop_returns rows _ _ _ Hloop) as (evs & -> & _ & Hcs & _).
  pose proof (prepare_prompt_text rows cs Hcs) as Hprompt.
  unfold generate_changelog. unfold mbind at 1. unfold M_bind. rewrite Hget.
  destruct (map summary_of_row rows) as [|c0 cs0] eqn:E; [done|].
  unfold mbind at 1. unfold M_bind. rewrite Hloop.
  unfold mbind at 1. unfold M_bind, lift. rewrite Hprompt.
  unfold mbind, M_bind, create.
  fold (chat_request (preamble +:+ body_text cs +:+ closing)).
  by destruct (service w _ _).
Qed.

Lemma generate_changelog_loop_raises n h commits h1 e h2 :
  get_recent_commits w n h = (Return commits, h1) → commits ≠ [] →
  for_each (detail_step w) commits [] h1 = (Raise e, h2) →
  generate_changelog w repr n h = (Raise e, h2).
Proof.
  intros Hget Hne Hloop.
  unfold generate_changelog. unfold mbind at 1. unfold M_bind. rewrite Hget.
  destruct commits as [|c0 cs0]; [done|].
  unfold mbind at 1. unfold M_bind. by rewrite Hloop.
Qed.

Lemma generate_changelog_reader_raises n h e h1 :
  get_recent_commits w n h = (Raise e, h1) →
  generate_changelog w repr n h = (Raise e, h1).
Proof.
  intros Hget. unfold generate_changelog, mbind, M_bind. by rewrite Hget.
Qed.

Lemma generate_changelog_empty n h h1 :
  get_recent_commits w n h = (Return [], h1) →
  generate_changelog w repr n h = (Return (Some no_history), h1).
Proof.
  intros Hget. unfold generate_changelog, mbind, M_bind. by rewrite Hget.
Qed.

End World.
End LoopFacts.

(** * The claims *)

Import PyFacts ReFacts PatternFacts NumstatFacts ReaderFacts FetcherFacts
  PromptFacts PipelineFacts LoopFacts.

Lemma length_omap_le {A B} (f : A → option B) l : length (omap f l) ≤ length l.
Proof.
  induction l as [|x l IH]; [done|]. rewrite omap_cons.
  destruct (f x); simpl; lia.
Qed.

Lemma split_lines_free (s line : string) :
  line ∈ Py.split Py.newline s → Py.contains Py.newline line = false.
Proof. apply split_pieces. Qed.

Lemma quiet_last (evs : history) h2 req :
  quiet evs → evs ≠ [] → ∀ h, h ++ evs ≠ h2 ++ [Create req].
Proof.
  intros Hq Hne h Heq.
  destruct (exists_last Hne) as (evs' & e & ->).
  rewrite app_assoc in Heq. apply app_inj_tail in Heq as [_ ->].
  apply Forall_app in Hq as [_ Hq]. by inversion Hq.
Qed.

(** C5. For every line of the output of a successful [git log], the History
    Reader splits the line on [|] and yields the summary of its four fields
    exactly when the split gives four fields; every other line is dropped
    without an error, and the summaries come in the order of their lines. *)
Theorem history_lines_parsed (w : World) (n : Z) (h : history) :
  faults w h (log_cmd n) = None →
  returncode (process w h (log_cmd n)) = 0%Z →
  let lines := output_lines (process w h (log_cmd n)) in
  (get_recent_commits w n h).1 = Return (omap summary_of_line lines) ∧
  ∀ line,
    (∀ ch a d m, Py.split "|" line = [ch; a; d; m] →
                 summary_of_line line = Some (CommitSummary ch a d m)) ∧
    (length (Py.split "|" line) ≠ 4 → summary_of_line line = None) ∧
    (is_Some (summary_of_line line) ↔ length (Py.split "|" line) = 4).
Proof.
  intros F H lines. split.
  - by rewrite (get_recent_commits_ok w n h F H).
  - intros line. split_and!.
    + intros ch a d m Hs. unfold summary_of_line. by rewrite Hs.
    + intros Hlen. destruct (summary_of_line line) as [c|] eqn:E; [|done].
      destruct Hlen. apply summary_of_line_length. by rewrite E.
    + apply summary_of_line_length.
Qed.

Lemma history_lines_parsed_witness :
  faults Sample.world_up [] (log_cmd 3) = None ∧
  returncode (process Sample.world_up [] (log_cmd 3)) = 0%Z ∧
  (get_recent_commits Sample.world_up 3 []).1
  = Return [summary_of_row Sample.alice; summary_of_row Sample.carol].
Proof.
  split; [reflexivity|]. split; [reflexivity|].
  destruct (history_lines_parsed Sample.world_up 3 [] eq_refl eq_refl) as [H _].
  rewrite H. reflexivity.
Defined.

(** C10. A successful [git log] can list more commits than the History
    Reader returns: a line whose subject contains [|] splits into more than
    four fields and is left out, whatever its other fields are. *)
Theorem delimiter_in_subject_drops_commit (w : World) (n : Z) (h : history)
    (before after : list string) (ch a d s : string) :
  faults w h (log_cmd n) = None →
  returncode (process w h (log_cmd n)) = 0%Z →
  output_lines (process w h (log_cmd n))
  = before ++ (ch +:+ "|" +:+ a +:+ "|" +:+ d +:+ "|" +:+ s) :: after →
  Py.contains "|" s = true →
  4 < length (Py.split "|" (ch +:+ "|" +:+ a +:+ "|" +:+ d +:+ "|" +:+ s)) ∧
  ∃ commits,
    (get_recent_commits w n h).1 = Return commits ∧
    commits = omap summary_of_line before ++ omap summary_of_line after ∧
    length commits < length (output_lines (process w h (log_cmd n))).
Proof.
  intros F Hok Hlines Hs.
  assert (Hlen : 4 < length (Py.split "|" (ch +:+ "|" +:+ a +:+ "|" +:+ d +:+ "|" +:+ s))).
  { rewrite length_split, !count_app. apply contains_count in Hs. simpl. lia. }
  split; [done|].
  assert (Hnone : summary_of_line (ch +:+ "|" +:+ a +:+ "|" +:+ d +:+ "|" +:+ s) = None).
  { destruct (summary_of_line _) eqn:E; [|done].
    assert (is_Some (summary_of_line (ch +:+ "|" +:+ a +:+ "|" +:+ d +:+ "|" +:+ s)))
      as Hsome%summary_of_line_length by (by rewrite E).
    lia. }
  exists (omap summary_of_line before ++ omap summary_of_line after). split_and!.
  - rewrite (get_recent_commits_ok w n h F Hok), Hlines.
    by rewrite omap_app, omap_cons, Hnone.
  - done.
  - rewrite Hlines, !length_app. simpl.
    pose proof (length_omap_le summary_of_line before).
    pose proof (length_omap_le summary_of_line after). lia.
Qed.

Lemma delimiter_in_subject_drops_commit_witness :
  faults Sample.world_up [] (log_cmd 3) = None ∧
  returncode (process Sample.world_up [] (log_cmd 3)) = 0%Z ∧
  output_lines (process Sample.world_up [] (log_cmd 3))
  = ["aaaa1111ffff|Alice|2024-01-01|Add login"]
    ++ ("bbbb2222ffff" +:+ "|" +:+ "Bob" +:+ "|" +:+ "2024-01-02" +:+ "|" +:+ "Fix crash|hang")
       :: ["cccc3333ffff|Carol|2024-01-03|Fix bug"] ∧
  Py.contains "|" "Fix crash|hang" = true ∧
  ∃ commits,
    (get_recent_commits Sample.world_up 3 []).1 = Return commits ∧ length commits < 3.
Proof.
  split; [reflexivity|].
  split; [reflexivity|]. split; [reflexivity|]. split; [reflexivity|].
  destruct (delimiter_in_subject_drops_commit Sample.world_up 3 []
              ["aaaa1111ffff|Alice|2024-01-01|Add login"]
              ["cccc3333ffff|Carol|2024-01-03|Fix bug"]
              "bbbb2222ffff" "Bob" "2024-01-02" "Fix crash|hang"
              eq_refl eq_refl eq_refl eq_refl) as (_ & commits & Hrun & _ & Hlen).
  exists commits. split; [exact Hrun|exact Hlen].
Defined.

(** C4. When the History Reader yields no commits, as it does when the log
    invocation fails, the pipeline returns the fixed no-history message and
    no request to the text-generation service is made in the run. *)
Theorem no_history_short_circuit (w : World) (repr : list diff_stat → string)
    (n : Z) (h : history) :
  (faults w h (log_cmd n) = None →
   returncode (process w h (log_cmd n)) ≠ 0%Z →
   (get_recent_commits w n h).1 = Return []) ∧
  ∀ h1,
    get_recent_commits w n h = (Return [], h1) →
    generate_changelog w repr n h
    = (Return (Some "No commit history found or not in a git repository"), h1) ∧
    ∃ evs, h1 = h ++ evs ∧ quiet evs.
Proof.
  split.
  - intros F H. by rewrite (get_recent_commits_fail w n h F H).
  - intros h1 Hget. split; [by apply generate_changelog_empty|].
    destruct (get_recent_commits_returns w n h _ _ Hget) as (rows & evs & _ & -> & Hq & _).
    by exists evs.
Qed.

Lemma no_history_short_circuit_witness :
  faults Sample.world_bare [] (log_cmd 5) = None ∧
  returncode (process Sample.world_bare [] (log_cmd 5)) ≠ 0%Z ∧
  generate_changelog Sample.world_bare Sample.repr 5 []
  = (Return (Some "No commit history found or not in a git repository"),
     [Run (log_cmd 5);
      Printed "Error retrieving commits: fatal: not a git repository"]).
Proof.
  split; [reflexivity|]. split; [discriminate|].
  destruct (no_history_short_circuit Sample.world_bare Sample.repr 5 []) as [_ H].
  destruct (H [Run (log_cmd 5);
               Printed "Error retrieving commits: fatal: not a git repository"]
              eq_refl) as [Hrun _].
  exact Hrun.
Defined.

(** The history of a whole run: when the service is asked, the request is
    the last event and the answer decides the result; otherwise the run, which
    has done something, holds no request. *)
Lemma generate_changelog_cases (w : World) (repr : list diff_stat → string)
    (n : Z) (h : history) :
  (∃ o evs, evs ≠ [] ∧ quiet evs ∧
     generate_changelog w repr n h = (o, h ++ evs) ∧
     (o = Return (Some no_history) ∨ ∃ e, o = Raise e ∧ from_git w e)) ∨
  (∃ h2 prompt,
     generate_changelog w repr n h
     = (outcome_of_reply (service w h2 (chat_request prompt)),
        h2 ++ [Create (chat_request prompt)])).
Proof.
  destruct (get_recent_commits_cases w n h) as (o & evs & Hget & Hq & Hne & Hcases).
  destruct Hcases as [([|r rows] & ->)|(e & -> & He)].
  - left. exists (Return (Some no_history)), evs. split_and!; [done|done| |by left].
    by apply generate_changelog_empty.
  - destruct (detail_loop w (r :: rows) [] (h ++ evs))
      as (o1 & evs1 & Hloop & Hq1 & [(cs & -> & _)|(e & -> & He)]).
    + right. eexists _, _.
      by apply (generate_changelog_asks w repr n h _ _ cs _ Hget).
    + left. exists (Raise e), (evs ++ evs1). split_and!.
      * by destruct evs.
      * by apply Forall_app.
      * rewrite app_assoc.
        by apply (generate_changelog_loop_raises w repr n h _ _ e _ Hget).
      * right. by exists e.
  - left. exists (Raise e), evs. split_and!; [done|done| |right; by exists e].
    by apply generate_changelog_reader_raises.
Qed.

(** C3. Whenever the request to the text-generation service fails with an
    exception, the Changelog Generator returns the error string that wraps
    the text of the exception; it does not raise.  With a non-empty history
    whose details have been fetched the request is made, as the last action
    of the run. *)
Theorem generation_failure_returned (w : World) (repr : list diff_stat → string)
    (n : Z) (h : history) :
  (∀ commits h1 cs h2,
     get_recent_commits w n h = (Return commits, h1) → commits ≠ [] →
     for_each (detail_step w) commits [] h1 = (Return cs, h2) →
     ∃ prompt,
       (generate_changelog w repr n h).2 = h2 ++ [Create (chat_request prompt)]) ∧
  ∀ h2 req e,
    (generate_changelog w repr n h).2 = h2 ++ [Create req] →
    service w h2 req = Failure e →
    (generate_changelog w repr n h).1
    = Return (Some ("Error generating changelog: " +:+ e)).
Proof.
  split.
  - intros commits h1 cs h2 Hget Hne Hloop.
    rewrite (generate_changelog_asks w repr n h _ _ _ _ Hget Hne Hloop).
    by eexists.
  - intros h2 req e Hlast Hfail.
    destruct (generate_changelog_cases w repr n h)
      as [(o & evs & Hne & Hq & Hrun & _)|(h3 & prompt & Hrun)];
      rewrite Hrun in *; simpl in *.
    + by destruct (quiet_last evs h2 req Hq Hne h).
    + apply app_inj_tail in Hlast as [-> [= <-]]. by rewrite Hfail.
Qed.

Lemma generation_failure_returned_witness :
  (generate_changelog Sample.world_down Sample.repr 3 []).2
  = Sample.fetched ++ [Create (chat_request Sample.prompt)] ∧
  service Sample.world_down Sample.fetched (chat_request Sample.prompt)
  = Failure "Connection error." ∧
  (generate_changelog Sample.world_down Sample.repr 3 []).1
  = Return (Some "Error generating changelog: Connection error.").
Proof.
  split; [vm_compute; reflexivity|]. split; [reflexivity|].
  destruct (generation_failure_returned Sample.world_down Sample.repr 3 []) as [_ H].
  apply (H Sample.fetched (chat_request Sample.prompt) "Connection error.");
    [vm_compute; reflexivity|reflexivity].
Defined.

(** C1 (as the code has it). In a run where the history is not empty and the
    service answers with generated text, [generate_changelog] returns [None]:
    the response is bound and the function ends without a [return]. *)
Theorem success_text_is_dropped :
  (get_recent_commits Sample.world_up 3 []).1
  = Return [summary_of_row Sample.alice; summary_of_row Sample.carol] ∧
  (∀ h req, service Sample.world_up h req = Response "## Changelog") ∧
  (generate_changelog Sample.world_up Sample.repr 3 []).1 = Return None ∧
  (generate_changelog Sample.world_up Sample.repr 3 []).1
  ≠ Return (Some "## Changelog").
Proof.
  split; [reflexivity|]. split; [reflexivity|].
  assert (H : (generate_changelog Sample.world_up Sample.repr 3 []).1 = Return None)
    by (vm_compute; reflexivity).
  split; [exact H|]. rewrite H. discriminate.
Qed.


Lemma fetch_completed (w : World) commit_hash h message changes num_stats :
  ending_of w h (message_cmd commit_hash) = Completed message →
  ending_of w (h ++ [Run (message_cmd commit_hash)]) (changes_cmd commit_hash)
  = Completed changes →
  ending_of w (h ++ [Run (message_cmd commit_hash); Run (changes_cmd commit_hash)])
    (numstat_cmd commit_hash) = Completed num_stats →
  get_commit_details w commit_hash h
  = (Return (CommitDetail commit_hash (Py.strip (stdout message))
                          (Py.strip (stdout changes)) (parsed_stats num_stats)),
     h ++ [Run (message_cmd commit_hash); Run (changes_cmd commit_hash);
           Run (numstat_cmd commit_hash)]).
Proof.
  intros E1 E2 E3. destruct (fetch_cases w commit_hash h) as (o & evs & -> & Hres).
  inversion Hres; subst; congruence.
Qed.






Lemma stats_text_app l1 l2 : stats_text (l1 ++ l2) = stats_text l1 +:+ stats_text l2.
Proof.
  induction l1 as [|st l1 IH]; [done|]. simpl. by rewrite IH, str_app_assoc.
Qed.

Lemma typed_commit_text (repr : list diff_stat → string) (c : dict)
    (commit_hash author date message : string)
    (full_message : option string) (stats : option (list diff_stat)) :
  c !! "hash" = Some (VStr commit_hash) →
  c !! "author" = Some (VStr author) →
  c !! "date" = Some (VStr date) →
  c !! "message" = Some (VStr message) →
  c !! "full_message" = VStr <$> full_message →
  c !! "diff_stats" = VList <$> stats →
  ∀ (rows1 rows2 : list row) cs1 cs2,
    Forall2 enriched rows1 cs1 → Forall2 enriched rows2 cs2 →
    prepare_prompt repr (cs1 ++ c :: cs2)
    = Return ((preamble +:+ body_text cs1)
              +:+ commit_text commit_hash author date message full_message
                    (default [] stats)
              +:+ body_text cs2 +:+ closing).
Proof.
  intros Hh Ha Hd Hm Hf Hs rows1 rows2 cs1 cs2 H1 H2. unfold prepare_prompt.
  rewrite (for_each_texts repr (cs1 ++ c :: cs2)
             (map text_of_commit cs1
              ++ commit_text commit_hash author date message full_message
                   (default [] stats) :: map text_of_commit cs2)).
  - unfold mbind, outcome_bind, mret, outcome_ret.
    rewrite concat_text_app. simpl. rewrite <-!body_text_concat.
    by rewrite !str_app_assoc.
  - apply Forall2_app; [by apply (enriched_texts repr rows1)|].
    constructor; [|by apply (enriched_texts repr rows2)].
    intros p. by apply add_commit_text.
Qed.

(** C6. For a commit with its four summary fields, standing anywhere among
    enriched commits, the prompt the Prompt Builder returns has a [Details:]
    line with the full message right after the [Message:] line of the commit
    when the commit has a full message that differs from the subject, and no
    such line when the full message equals the subject or is absent. *)
Theorem details_line_iff_differs (repr : list diff_stat → string)
    (rows1 rows2 : list row) (cs1 cs2 : list dict)
    (c : dict) (commit_hash author date message : string)
    (full_message : option string) (stats : option (list diff_stat)) :
  Forall2 enriched rows1 cs1 → Forall2 enriched rows2 cs2 →
  c !! "hash" = Some (VStr commit_hash) →
  c !! "author" = Some (VStr author) →
  c !! "date" = Some (VStr date) →
  c !! "message" = Some (VStr message) →
  c !! "full_message" = VStr <$> full_message →
  c !! "diff_stats" = VList <$> stats →
  let before := preamble +:+ body_text cs1 in
  let header := header_text commit_hash author date message in
  let rest := stats_text (default [] stats) +:+ nl +:+ body_text cs2 +:+ closing in
  (∀ fm, full_message = Some fm → fm ≠ message →
     prepare_prompt repr (cs1 ++ c :: cs2)
     = Return (before +:+ header +:+ ("Details: " +:+ fm +:+ nl) +:+ rest)) ∧
  (full_message = Some message →
     prepare_prompt repr (cs1 ++ c :: cs2) = Return (before +:+ header +:+ rest)) ∧
  (full_message = None →
     prepare_prompt repr (cs1 ++ c :: cs2) = Return (before +:+ header +:+ rest)).
Proof.
  intros H1 H2 Hh Ha Hd Hm Hf Hs before header rest.
  rewrite (typed_commit_text repr c commit_hash author date message full_message
             stats Hh Ha Hd Hm Hf Hs rows1 rows2 cs1 cs2 H1 H2).
  unfold commit_text, details_text. fold before. fold header. subst rest.
  split_and!.
  - intros fm -> Hne. destruct (decide (fm = message)); [done|].
    by rewrite !str_app_assoc.
  - intros ->. destruct (decide (message = message)); [|done].
    by rewrite !str_app_assoc.
  - intros ->. by rewrite !str_app_assoc.
Qed.

Lemma details_line_iff_differs_witness :
  Forall2 enriched [Sample.alice] [summary_of_row Sample.alice] ∧
  prepare_prompt Sample.repr
    ([summary_of_row Sample.alice]
     ++ merge (CommitSummary "cccc3333ffff" "Carol" "2024-01-03" "Fix bug")
              (CommitDetail "cccc3333ffff" "Fix bug" "" []) :: [])
  = Return (preamble
            +:+ ("Commit Hash: aaaa1111" +:+ nl +:+ "Author: Alice" +:+ nl
                 +:+ "Date: 2024-01-01" +:+ nl +:+ "Message: Add login" +:+ nl +:+ nl)
            +:+ ("Commit Hash: cccc3333" +:+ nl +:+ "Author: Carol" +:+ nl
                 +:+ "Date: 2024-01-03" +:+ nl +:+ "Message: Fix bug" +:+ nl +:+ nl)
            +:+ closing) ∧
  prepare_prompt Sample.repr
    ([summary_of_row Sample.alice]
     ++ merge (CommitSummary "cccc3333ffff" "Carol" "2024-01-03" "Fix bug")
              (CommitDetail "cccc3333ffff"
                 ("Fix bug" +:+ nl +:+ nl +:+ "Longer explanation.") "" []) :: [])
  = Return (preamble
            +:+ ("Commit Hash: aaaa1111" +:+ nl +:+ "Author: Alice" +:+ nl
                 +:+ "Date: 2024-01-01" +:+ nl +:+ "Message: Add login" +:+ nl +:+ nl)
            +:+ ("Commit Hash: cccc3333" +:+ nl +:+ "Author: Carol" +:+ nl
                 +:+ "Date: 2024-01-03" +:+ nl +:+ "Message: Fix bug" +:+ nl
                 +:+ "Details: Fix bug" +:+ nl +:+ nl +:+ "Longer explanation." +:+ nl
                 +:+ nl)
            +:+ closing).
Proof.
  assert (Ha : Forall2 enriched [Sample.alice] [summary_of_row Sample.alice])
    by (constructor; [by left|constructor]).
  assert (He : Forall2 enriched ([] : list row) ([] : list dict)) by constructor.
  split; [exact Ha|]. split.
  - destruct (details_line_iff_differs Sample.repr [Sample.alice] [] _ []
                (merge (CommitSummary "cccc3333ffff" "Carol" "2024-01-03" "Fix bug")
                       (CommitDetail "cccc3333ffff" "Fix bug" "" []))
                "cccc3333ffff" "Carol" "2024-01-03" "Fix bug"
                (Some "Fix bug") (Some [])
                Ha He eq_refl eq_refl eq_refl eq_refl eq_refl eq_refl) as (_ & H & _).
    rewrite (H eq_refl). vm_compute. reflexivity.
  - destruct (details_line_iff_differs Sample.repr [Sample.alice] [] _ []
                (merge (CommitSummary "cccc3333ffff" "Carol" "2024-01-03" "Fix bug")
                       (CommitDetail "cccc3333ffff"
                          ("Fix bug" +:+ nl +:+ nl +:+ "Longer explanation.") "" []))
                "cccc3333ffff" "Carol" "2024-01-03" "Fix bug"
                (Some ("Fix bug" +:+ nl +:+ nl +:+ "Longer explanation.")) (Some [])
                Ha He eq_refl eq_refl eq_refl eq_refl eq_refl eq_refl) as (H & _ & _).
    rewrite (H _ eq_refl); [vm_compute; reflexivity|discriminate].
Defined.

(** C8. Each line of the numstat output gives one stat exactly when it reads
    as a count or [-], white space, a count or [-], white space and a rest,
    and the rest of the line, inner white space included, is the file path;
    every other line gives nothing, and the stats of the lines are put
    together in order, each line on its own. *)
Theorem numstat_lines_parsed (w : World) (commit_hash : string) (h : history) :
  let c1 := show_cmd "--format=%B" commit_hash in
  let c2 := show_cmd "--name-status" commit_hash in
  let c3 := show_cmd "--numstat" commit_hash in
  let lines := output_lines (process w (h ++ [Run c1; Run c2]) c3) in
  (faults w h c1 = None →
   returncode (process w h c1) = 0%Z →
   faults w (h ++ [Run c1]) c2 = None →
   returncode (process w (h ++ [Run c1]) c2) = 0%Z →
   faults w (h ++ [Run c1; Run c2]) c3 = None →
   returncode (process w (h ++ [Run c1; Run c2]) c3) = 0%Z →
   ∃ d,
     (get_commit_details w commit_hash h).1 = Return d ∧
     d !! "diff_stats" = Some (VList (concat (map (stats_step []) lines)))) ∧
  ∀ line, line ∈ lines →
    (∀ a d p,
       stats_step [] line = [ {| file := p; additions := a; deletions := d |} ]
       ↔ numstat_shape line a d p) ∧
    ((∀ a d p, ¬ numstat_shape line a d p) → stats_step [] line = []).
Proof.
  intros c1 c2 c3 lines. split.
  - intros F1 H1 F2 H2 F3 H3. eexists.
    rewrite (fetch_ok w commit_hash h F1 H1 F2 H2 F3 H3).
    split; [reflexivity|]. done.
  - intros line Hline. apply split_lines_free in Hline. split.
    + intros a d p. by apply stats_step_shape.
    + intros Hno. destruct (stats_step_cases line) as [?|(a & d & p & Hst)]; [done|].
      destruct (Hno a d p). by apply stats_step_shape.
Qed.

Lemma numstat_lines_parsed_witness :
  ("12" +:+ Sample.tab +:+ "3" +:+ Sample.tab +:+ "docs/my file.txt") ∈
    output_lines (process Sample.world_up
                    ([] ++ [Run (show_cmd "--format=%B" "aaaa1111ffff");
                            Run (show_cmd "--name-status" "aaaa1111ffff")])
                    (show_cmd "--numstat" "aaaa1111ffff")) ∧
  numstat_shape ("12" +:+ Sample.tab +:+ "3" +:+ Sample.tab +:+ "docs/my file.txt")
    "12" "3" "docs/my file.txt" ∧
  stats_step [] ("12" +:+ Sample.tab +:+ "3" +:+ Sample.tab +:+ "docs/my file.txt")
  = [ {| file := "docs/my file.txt"; additions := "12"; deletions := "3" |} ].
Proof.
  assert (Hin : ("12" +:+ Sample.tab +:+ "3" +:+ Sample.tab +:+ "docs/my file.txt") ∈
    output_lines (process Sample.world_up
                    ([] ++ [Run (show_cmd "--format=%B" "aaaa1111ffff");
                            Run (show_cmd "--name-status" "aaaa1111ffff")])
                    (show_cmd "--numstat" "aaaa1111ffff"))) by (vm_compute; left).
  assert (Hshape : numstat_shape
            ("12" +:+ Sample.tab +:+ "3" +:+ Sample.tab +:+ "docs/my file.txt")
            "12" "3" "docs/my file.txt").
  { exists Sample.tab, Sample.tab. split; [reflexivity|].
    split; [right; split; [discriminate|reflexivity]|].
    split; [split; [discriminate|reflexivity]|].
    split; [right; split; [discriminate|reflexivity]|].
    split; [split; [discriminate|reflexivity]|].
    split; [discriminate|left; reflexivity]. }
  split; [exact Hin|]. split; [exact Hshape|].
  destruct (numstat_lines_parsed Sample.world_up "aaaa1111ffff" []) as [_ H].
  destruct (H _ Hin) as [Hiff _]. apply Hiff. exact Hshape.
Defined.

Lemma concat_steps_split lines1 line lines2 st :
  stats_step [] line = [st] →
  concat (map (stats_step []) (lines1 ++ line :: lines2))
  = concat (map (stats_step []) lines1) ++ st :: concat (map (stats_step []) lines2).
Proof.
  intros Hst. rewrite map_app, concat_app. simpl. by rewrite Hst.
Qed.

(** C7. When the numstat output of a commit has a line whose additions or
    deletions column is the marker [-], the record the Detail Fetcher returns
    holds a stat with the columns as they stand in the line, and the prompt
    the Prompt Builder returns for the commit enriched with this record has
    the file line of that stat with the stored columns printed as they
    are. *)
Theorem marker_preserved (w : World) (repr : list diff_stat → string)
    (commit_hash : string) (h : history)
    (message changes num_stats : CompletedProcess) (line a d p : string) :
  ending_of w h (message_cmd commit_hash) = Completed message →
  ending_of w (h ++ [Run (message_cmd commit_hash)]) (changes_cmd commit_hash)
  = Completed changes →
  ending_of w (h ++ [Run (message_cmd commit_hash); Run (changes_cmd commit_hash)])
    (numstat_cmd commit_hash) = Completed num_stats →
  line ∈ output_lines num_stats →
  numstat_shape line a d p →
  a = "-" ∨ d = "-" →
  ∃ detail stats1 stats2,
    (get_commit_details w commit_hash h).1 = Return detail ∧
    detail !! "diff_stats"
    = Some (VList (stats1 ++ {| file := p; additions := a; deletions := d |}
                           :: stats2)) ∧
    ∀ author date subject,
      prepare_prompt repr
        [merge (CommitSummary commit_hash author date subject) detail]
      = Return (preamble
                +:+ header_text commit_hash author date subject
                +:+ details_text subject (Some (Py.strip (stdout message)))
                +:+ stats_text stats1
                +:+ ("File: " +:+ p +:+ " (+" +:+ a +:+ " / -" +:+ d +:+ ")" +:+ nl)
                +:+ stats_text stats2 +:+ nl
                +:+ closing).
Proof.
  intros E1 E2 E3 Hline Hshape _.
  assert (Hnl : Py.contains Py.newline line = false) by (by apply split_lines_free in Hline).
  assert (Hst : stats_step [] line = [ {| file := p; additions := a; deletions := d |} ])
    by (by apply stats_step_shape).
  apply list_elem_of_split in Hline as (lines1 & lines2 & Hlines).
  exists (CommitDetail commit_hash (Py.strip (stdout message))
            (Py.strip (stdout changes)) (parsed_stats num_stats)),
    (concat (map (stats_step []) lines1)), (concat (map (stats_step []) lines2)).
  assert (Hparsed : parsed_stats num_stats
                    = concat (map (stats_step []) lines1)
                      ++ {| file := p; additions := a; deletions := d |}
                         :: concat (map (stats_step []) lines2)).
  { unfold parsed_stats. rewrite Hlines. by apply concat_steps_split. }
  split_and!.
  - by rewrite (fetch_completed w commit_hash h _ _ _ E1 E2 E3).
  - rewrite <-Hparsed. reflexivity.
  - intros author date subject.
    destruct (merged_lookup commit_hash author date subject commit_hash
                (Py.strip (stdout message)) (Py.strip (stdout changes))
                (parsed_stats num_stats)) as (H1 & H2 & H3 & H4 & H5 & H6).
    pose proof (typed_commit_text repr _ commit_hash author date subject
                  (Some (Py.strip (stdout message))) (Some (parsed_stats num_stats))
                  H1 H2 H3 H4 H5 H6 [] [] [] [] ltac:(constructor) ltac:(constructor))
      as Hprompt.
    simpl in Hprompt. rewrite Hprompt.
    unfold commit_text. simpl. rewrite Hparsed, stats_text_app. simpl.
    unfold stat_line. simpl. rewrite str_app_nil_r.
    by rewrite !str_app_assoc.
Qed.

Lemma marker_preserved_witness :
  ("-" +:+ Sample.tab +:+ "-" +:+ Sample.tab +:+ "logo.png")
    ∈ output_lines (Sample.completed Sample.numstat_text) ∧
  numstat_shape ("-" +:+ Sample.tab +:+ "-" +:+ Sample.tab +:+ "logo.png")
    "-" "-" "logo.png" ∧
  ∃ detail stats1 stats2,
    (get_commit_details Sample.world_up "aaaa1111ffff" []).1 = Return detail ∧
    detail !! "diff_stats"
    = Some (VList (stats1 ++ {| file := "logo.png"; additions := "-";
                               deletions := "-" |} :: stats2)) ∧
    ∀ author date subject,
      prepare_prompt Sample.repr
        [merge (CommitSummary "aaaa1111ffff" author date subject) detail]
      = Return (preamble
                +:+ header_text "aaaa1111ffff" author date subject
                +:+ details_text subject
                      (Some (Py.strip (stdout (Sample.completed
                         ("Add login" +:+ nl +:+ nl +:+ "Longer explanation." +:+ nl)))))
                +:+ stats_text stats1
                +:+ ("File: " +:+ "logo.png" +:+ " (+" +:+ "-" +:+ " / -" +:+ "-" +:+ ")"
                     +:+ nl)
                +:+ stats_text stats2 +:+ nl
                +:+ closing).
Proof.
  assert (Hin : ("-" +:+ Sample.tab +:+ "-" +:+ Sample.tab +:+ "logo.png")
                  ∈ output_lines (Sample.completed Sample.numstat_text))
    by (vm_compute; right; right; left).
  assert (Hshape : numstat_shape
            ("-" +:+ Sample.tab +:+ "-" +:+ Sample.tab +:+ "logo.png")
            "-" "-" "logo.png").
  { exists Sample.tab, Sample.tab. split; [reflexivity|].
    split; [left; reflexivity|].
    split; [split; [discriminate|reflexivity]|].
    split; [left; reflexivity|].
    split; [split; [discriminate|reflexivity]|].
    split; [discriminate|left; reflexivity]. }
  split; [exact Hin|]. split; [exact Hshape|].
  exact (marker_preserved Sample.world_up Sample.repr "aaaa1111ffff" []
           (Sample.completed
              ("Add login" +:+ nl +:+ nl +:+ "Longer explanation." +:+ nl))
           (Sample.completed ("M" +:+ Sample.tab +:+ "docs/my file.txt"))
           (Sample.completed Sample.numstat_text)
           ("-" +:+ Sample.tab +:+ "-" +:+ Sample.tab +:+ "logo.png")
           "-" "-" "logo.png" eq_refl eq_refl eq_refl Hin Hshape (or_introl eq_refl)).
Defined.

(** * More of the program *)

Module JoinFacts.
Import Py.

Lemma join_cons sep x y l : join sep (x :: y :: l) = x +:+ sep +:+ join sep (y :: l).
Proof. reflexivity. Qed.

(** Joining the pieces of a split with the separator gives the string back. *)
Lemma join_split sep s : join (String sep "") (split sep s) = s.
Proof.
  induction s as [|c s IH]; [done|]. simpl.
  pose proof (split_not_nil sep s) as Hne.
  destruct (Ascii.eqb_spec c sep) as [->|Hc].
  - destruct (split sep s) as [|p rest] eqn:E; [done|].
    rewrite join_cons, IH. reflexivity.
  - destruct (split sep s) as [|p [|q rest]] eqn:E; [done| |].
    + simpl in *. by rewrite IH.
    + rewrite join_cons in *. rewrite str_app_cons. by rewrite IH.
Qed.

(** Splitting a join of pieces that are free of the separator gives the
    pieces back. *)
Lemma split_join sep (l : list string) :
  l ≠ [] → Forall (λ x, contains sep x = false) l →
  split sep (join (String sep "") l) = l.
Proof.
  induction l as [|x [|y l] IH]; [done| |].
  - intros _ Hl. simpl. apply split_free. by inversion Hl.
  - intros _ Hl. inversion Hl as [|? ? Hx Hl']; subst.
    rewrite join_cons.
    change (x +:+ String sep "" +:+ join (String sep "") (y :: l))
      with (x +:+ String sep (join (String sep "") (y :: l))).
    rewrite split_app by done. by rewrite IH.
Qed.

Lemma clean_field_spec s :
  clean_field s = true ↔ contains "|" s = false ∧ contains newline s = false.
Proof.
  unfold clean_field. rewrite andb_true_iff, !negb_true_iff. done.
Qed.

Lemma clean_row_spec ch a d m :
  clean_row (ch, a, d, m) = true ↔
  clean_field ch = true ∧ clean_field a = true ∧ clean_field d = true ∧
  clean_field m = true.
Proof. unfold clean_row. rewrite !andb_true_iff. tauto. Qed.

Lemma line_of_row_parsed (r : row) :
  clean_row r = true → summary_of_line (line_of_row r) = Some (summary_of_row r).
Proof.
  destruct r as [[[ch a] d] m].
  intros (Hc & Ha & Hd & Hm)%clean_row_spec.
  apply clean_field_spec in Hc as [Hc _]. apply clean_field_spec in Ha as [Ha _].
  apply clean_field_spec in Hd as [Hd _]. apply clean_field_spec in Hm as [Hm _].
  unfold summary_of_line, line_of_row.
  change (ch +:+ "|" +:+ a +:+ "|" +:+ d +:+ "|" +:+ m)
    with (ch +:+ String "|" (a +:+ String "|" (d +:+ String "|" m))).
  rewrite !split_app by done. by rewrite split_free.
Qed.

Lemma line_of_row_free (r : row) :
  clean_row r = true → contains newline (line_of_row r) = false.
Proof.
  destruct r as [[[ch a] d] m].
  intros (Hc & Ha & Hd & Hm)%clean_row_spec.
  apply clean_field_spec in Hc as [_ Hc]. apply clean_field_spec in Ha as [_ Ha].
  apply clean_field_spec in Hd as [_ Hd]. apply clean_field_spec in Hm as [_ Hm].
  unfold line_of_row. rewrite !contains_app, Hc, Ha, Hd, Hm. reflexivity.
Qed.

Lemma omap_rows (rows : list row) :
  forallb clean_row rows = true →
  omap summary_of_line (map line_of_row rows) = map summary_of_row rows.
Proof.
  induction rows as [|r rows IH]; [done|]. cbn [forallb map].
  intros [Hr Hrows]%andb_prop. rewrite omap_cons, line_of_row_parsed by done.
  by rewrite IH.
Qed.

(** A summary comes from a line of four clean fields. *)
Lemma summary_of_line_Some line c :
  contains newline line = false →
  summary_of_line line = Some c →
  ∃ r : row, c = summary_of_row r ∧ clean_row r = true ∧ line = line_of_row r.
Proof.
  intros Hnl. unfold summary_of_line.
  destruct (split "|" line) as [|ch [|a [|d [|m [|? ?]]]]] eqn:E; try done.
  intros [= <-]. exists (ch, a, d, m).
  pose proof (join_split "|" line) as Hj. rewrite E in Hj.
  assert (Hline : line = line_of_row (ch, a, d, m)) by (by rewrite <-Hj).
  split; [done|]. split; [|done].
  assert (Hin : ∀ x, x ∈ [ch; a; d; m] → contains "|" x = false).
  { intros x Hx. apply (split_pieces "|" line). by rewrite E. }
  rewrite Hline in Hnl. unfold line_of_row in Hnl. rewrite !contains_app in Hnl.
  repeat (apply orb_false_elim in Hnl as [? Hnl]).
  apply clean_row_spec. rewrite !clean_field_spec.
  split_and!; try done; apply Hin; set_solver.
Qed.

End JoinFacts.

Import JoinFacts.

(** X2. A log whose lines are the rows of clean fields joined by newlines,
    with no white space at either end, is read back as exactly these rows. *)
Theorem history_round_trip (w : World) (n : Z) (h : history) (rows : list row) :
  faults w h (log_cmd n) = None →
  returncode (process w h (log_cmd n)) = 0%Z →
  stdout (process w h (log_cmd n)) = join nl (map line_of_row rows) →
  Py.strip (join nl (map line_of_row rows)) = join nl (map line_of_row rows) →
  forallb clean_row rows = true →
  (get_recent_commits w n h).1 = Return (map summary_of_row rows).
Proof.
  intros F Hok Hout Hstrip Hclean.
  rewrite (get_recent_commits_ok w n h F Hok). simpl. f_equal.
  unfold output_lines. rewrite Hout, Hstrip.
  destruct rows as [|r rows]; [done|].
  unfold nl. rewrite split_join.
  - by apply omap_rows.
  - done.
  - apply Forall_forall. intros line (r' & -> & Hr')%list_elem_of_fmap.
    apply line_of_row_free.
    rewrite forallb_forall in Hclean. apply Hclean. by apply list_elem_of_In.
Qed.

Lemma history_round_trip_witness :
  faults Sample2.clean_world [] (log_cmd 2) = None ∧
  returncode (process Sample2.clean_world [] (log_cmd 2)) = 0%Z ∧
  forallb clean_row Sample2.rows = true ∧
  (get_recent_commits Sample2.clean_world 2 []).1
  = Return (map summary_of_row Sample2.rows).
Proof.
  split; [reflexivity|]. split; [reflexivity|]. split; [reflexivity|].
  exact (history_round_trip Sample2.clean_world 2 [] Sample2.rows
           eq_refl eq_refl eq_refl eq_refl eq_refl).
Defined.

(** X3. Every summary the History Reader returns is the summary of a line of
    the output, and none of its four fields holds the delimiter or a
    newline. *)
Theorem summaries_are_clean (w : World) (n : Z) (h h1 : history)
    (commits : list dict) (c : dict) :
  get_recent_commits w n h = (Return commits, h1) →
  c ∈ commits →
  ∃ r : row,
    c = summary_of_row r ∧ clean_row r = true ∧
    line_of_row r ∈ output_lines (process w h (log_cmd n)).
Proof.
  intros Hget Hc.
  destruct (faults w h (log_cmd n)) as [[cls text]|] eqn:F.
  { by rewrite (get_recent_commits_other w n h _ _ F) in Hget. }
  destruct (decide (returncode (process w h (log_cmd n)) = 0%Z)) as [H|H].
  - rewrite (get_recent_commits_ok w n h F H) in Hget. injection Hget as <- _.
    apply list_elem_of_omap in Hc as (line & Hline & Hsum).
    destruct (summary_of_line_Some line c) as (r & -> & Hr & ->); [|done|].
    + by apply (split_pieces Py.newline (Py.strip (stdout (process w h (log_cmd n))))).
    + by exists r.
  - rewrite (get_recent_commits_fail w n h F H) in Hget. injection Hget as <- _.
    by apply elem_of_nil in Hc.
Qed.

Lemma summaries_are_clean_witness :
  summary_of_row Sample.carol ∈ [summary_of_row Sample.alice; summary_of_row Sample.carol] ∧
  ∃ r : row,
    summary_of_row Sample.carol = summary_of_row r ∧ clean_row r = true ∧
    line_of_row r ∈ output_lines (process Sample.world_up [] (log_cmd 3)).
Proof.
  assert (Hin : summary_of_row Sample.carol
                ∈ [summary_of_row Sample.alice; summary_of_row Sample.carol])
    by (right; left).
  split; [exact Hin|].
  exact (summaries_are_clean Sample.world_up 3 [] [Run (log_cmd 3)]
           [summary_of_row Sample.alice; summary_of_row Sample.carol]
           (summary_of_row Sample.carol) eq_refl Hin).
Defined.

Module StatFacts.
Import Py.

Lemma length_concat_steps lines :
  length (concat (map (stats_step []) lines)) ≤ length lines.
Proof.
  induction lines as [|line lines IH]; [done|]. simpl. rewrite length_app.
  destruct (stats_step_cases line) as [->|(a & d & p & ->)]; simpl; lia.
Qed.

Lemma count_field_start a r : count_field a → head_is count_start (a +:+ r) = true.
Proof.
  intros [->|[Ha Hd]]; [done|]. destruct a as [|c a]; [done|].
  simpl in *. apply andb_prop in Hd as [Hc _]. unfold count_start. by rewrite Hc.
Qed.

Lemma match_start line m :
  Re.match_ pattern line = Some m → head_is count_start line = true.
Proof.
  unfold Re.match_. rewrite pattern_eq, exec_seq.
  intros (a & r & -> & Ha & _)%count_group_Some. by apply count_field_start.
Qed.

End StatFacts.

Import StatFacts.

(** X4. Every stat the Detail Fetcher parses comes from a line of the
    numstat output that reads as a stat line: its two counts are digits or
    the marker, its path is not empty and holds no newline.  There are no
    more stats than lines. *)
Theorem stats_are_well_formed (result : CompletedProcess) :
  let lines := output_lines result in
  let stats := foldl stats_step [] lines in
  length stats ≤ length lines ∧
  ∀ st, st ∈ stats →
    count_field (additions st) ∧ count_field (deletions st) ∧
    file st ≠ "" ∧ Py.contains Py.newline (file st) = false ∧
    ∃ line, line ∈ lines ∧
            numstat_shape line (additions st) (deletions st) (file st).
Proof.
  intros lines stats. subst stats. rewrite foldl_stats_step. simpl. split.
  - apply length_concat_steps.
  - intros st (l & Hl & Hst)%list_elem_of_In%in_concat.
    apply list_elem_of_In in Hst.
    apply list_elem_of_In, list_elem_of_fmap in Hl as (line & -> & Hline).
    assert (Hnl : Py.contains Py.newline line = false)
      by (by apply (split_pieces Py.newline (Py.strip (stdout result)))).
    destruct (stats_step_cases line) as [E|(a & d & p & E)]; rewrite E in Hst.
    + by apply elem_of_nil in Hst.
    + apply list_elem_of_singleton in Hst as ->. simpl.
      apply (stats_step_shape line a d p Hnl) in E.
      pose proof E as (w1 & w2 & Hl & Ha & _ & Hd & _ & Hp & _).
      split_and!; try done.
      * rewrite Hl, !contains_app in Hnl.
        by repeat (apply orb_false_elim in Hnl as [? Hnl]).
      * by exists line.
Qed.

Lemma stats_are_well_formed_witness :
  {| file := "logo.png"; additions := "-"; deletions := "-" |}
    ∈ foldl stats_step [] (output_lines (Sample.completed Sample.numstat_text)) ∧
  count_field "-" ∧
  Py.contains Py.newline "logo.png" = false.
Proof.
  assert (Hin : {| file := "logo.png"; additions := "-"; deletions := "-" |}
    ∈ foldl stats_step [] (output_lines (Sample.completed Sample.numstat_text)))
    by (vm_compute; right; left).
  split; [exact Hin|].
  destruct (stats_are_well_formed (Sample.completed Sample.numstat_text)) as [_ H].
  destruct (H _ Hin) as (Ha & _ & _ & Hf & _). split; [exact Ha|exact Hf].
Defined.

(** X5. A line that does not begin with a digit or with the marker [-], such
    as the header and the indented message that [git show] prints before the
    stats, adds no stat. *)
Theorem other_lines_are_skipped (diff_stats : list diff_stat) (line : string) :
  Py.head_is count_start line = false →
  stats_step diff_stats line = diff_stats.
Proof.
  intros Hhead. unfold stats_step.
  destruct (Re.match_ pattern line) as [m|] eqn:E; [|done].
  apply match_start in E. congruence.
Qed.

Lemma other_lines_are_skipped_witness :
  Py.head_is count_start "    12 3 files" = false ∧
  stats_step [] "    12 3 files" = [].
Proof.
  split; [reflexivity|]. exact (other_lines_are_skipped [] "    12 3 files" eq_refl).
Defined.

Module PromptMore.
Import Py.

Lemma body_text_app cs1 cs2 : body_text (cs1 ++ cs2) = body_text cs1 +:+ body_text cs2.
Proof.
  induction cs1 as [|c cs1 IH]; [done|]. simpl. by rewrite IH, str_app_assoc.
Qed.

Lemma slice_to_prefix n s : ∃ rest, s = slice_to n s +:+ rest.
Proof.
  revert s. induction n as [|n IH]; intros s; [by exists s|].
  destruct s as [|c s]; [by exists ""|]. destruct (IH s) as (rest & Hrest).
  exists rest. simpl. rewrite str_app_cons. by rewrite <-Hrest.
Qed.

Lemma slice_to_length n s : String.length (slice_to n s) = Nat.min n (String.length s).
Proof.
  revert s. induction n as [|n IH]; intros s; [done|].
  destruct s as [|c s]; [done|]. simpl. by rewrite IH.
Qed.

Lemma add_commit_missing repr prompt (c : dict) key :
  first_missing c = Some key → add_commit repr prompt c = Raise (KeyError key).
Proof.
  unfold first_missing, add_commit, getitem. simpl.
  destruct (c !! "hash") as [vh|]; [|by intros [= <-]].
  destruct (c !! "author") as [va|]; [|by intros [= <-]].
  destruct (c !! "date") as [vd|]; [|by intros [= <-]].
  destruct (c !! "message") as [vm|]; [done|by intros [= <-]].
Qed.

Lemma for_each_pure_raise repr (rows : list row) cs1 c cs2 prompt e :
  Forall2 enriched rows cs1 →
  (∀ p, add_commit repr p c = Raise e) →
  for_each_pure (add_commit repr) (cs1 ++ c :: cs2) prompt = Raise e.
Proof.
  intros H Hc. revert prompt. induction H as [|r c1 rows cs1 Hc1 _ IH]; intros prompt.
  - simpl. by rewrite Hc.
  - simpl. rewrite (add_commit_enriched_text repr prompt r c1 Hc1).
    unfold mbind, outcome_bind. apply IH.
Qed.

End PromptMore.

Import PromptMore.

(** X6. Every fetch calls [subprocess.run] at least once and at most three
    times, each time for a [git show] of its commit, whether it returns or
    raises; it makes all three calls whenever it returns a record that is not
    empty. *)
Theorem git_commands_per_commit (w : World) (commit_hash : string) (h : history) :
  ∃ o evs,
    get_commit_details w commit_hash h = (o, h ++ evs) ∧
    1 ≤ runs evs ≤ 3 ∧
    (∀ args, Run args ∈ evs →
       args ∈ [message_cmd commit_hash; changes_cmd commit_hash;
               numstat_cmd commit_hash]) ∧
    (∀ d, o = Return d → d ≠ ∅ → runs evs = 3).
Proof.
  destruct (fetch_cases w commit_hash h) as (o & evs & Heq & Hres).
  exists o, evs. split; [done|].
  assert (Hruns : ∀ evs0 : history,
            Forall (λ e, match e with
                         | Run args =>
                             In args [message_cmd commit_hash; changes_cmd commit_hash;
                                      numstat_cmd commit_hash]
                         | _ => True
                         end) evs0 →
            ∀ args, Run args ∈ evs0 →
              args ∈ [message_cmd commit_hash; changes_cmd commit_hash;
                      numstat_cmd commit_hash]).
  { intros evs0 Hall args Hargs. rewrite Forall_forall in Hall.
    apply list_elem_of_In. exact (Hall _ Hargs). }
  destruct Hres; (split; [cbn; lia|]);
    (split; [apply Hruns; repeat constructor; simpl; tauto|]);
    intros d0 Hd Hne;
    first [ discriminate Hd
          | reflexivity
          | injection Hd as <-; destruct Hne; reflexivity ].
Qed.

(** X7. For enriched commits the prompt is the preamble, the texts of the
    commits in their order and the closing; the text of a list of commits is
    the text of its first part followed by the text of the rest, and Python's
    [repr] of a list plays no part. *)
Theorem prompt_is_framed (repr : list diff_stat → string)
    (rows1 rows2 : list row) (cs1 cs2 : list dict) :
  Forall2 enriched rows1 cs1 → Forall2 enriched rows2 cs2 →
  prepare_prompt repr (cs1 ++ cs2)
  = Return (preamble +:+ body_text cs1 +:+ body_text cs2 +:+ closing).
Proof.
  intros H1 H2.
  rewrite (prepare_prompt_text repr (rows1 ++ rows2) (cs1 ++ cs2))
    by (by apply Forall2_app).
  by rewrite body_text_app, str_app_assoc.
Qed.

Lemma prompt_is_framed_witness :
  Forall2 enriched [Sample.alice] [summary_of_row Sample.alice] ∧
  Forall2 enriched [Sample.carol] [summary_of_row Sample.carol] ∧
  prepare_prompt Sample.repr
    ([summary_of_row Sample.alice] ++ [summary_of_row Sample.carol])
  = Return (preamble
            +:+ commit_text "aaaa1111ffff" "Alice" "2024-01-01" "Add login" None []
            +:+ commit_text "cccc3333ffff" "Carol" "2024-01-03" "Fix bug" None []
            +:+ closing).
Proof.
  assert (Ha : Forall2 enriched [Sample.alice] [summary_of_row Sample.alice])
    by (constructor; [by left|constructor]).
  assert (Hc : Forall2 enriched [Sample.carol] [summary_of_row Sample.carol])
    by (constructor; [by left|constructor]).
  split; [exact Ha|]. split; [exact Hc|].
  rewrite (prompt_is_framed Sample.repr _ _ _ _ Ha Hc). reflexivity.
Defined.

(** X8. When a commit dict lacks one of the keys [hash], [author], [date],
    [message], the Prompt Builder raises [KeyError] for the first one it
    lacks, whatever enriched commits come before it and whatever follows. *)
Theorem prompt_missing_key (repr : list diff_stat → string) (rows : list row)
    (cs1 cs2 : list dict) (c : dict) (key : string) :
  Forall2 enriched rows cs1 →
  first_missing c = Some key →
  prepare_prompt repr (cs1 ++ c :: cs2) = Raise (KeyError key).
Proof.
  intros H Hc. unfold prepare_prompt.
  rewrite (for_each_pure_raise repr rows cs1 c cs2 preamble (KeyError key) H);
    [done|].
  intros p. by apply add_commit_missing.
Qed.

Lemma prompt_missing_key_witness :
  Forall2 enriched [Sample.alice] [summary_of_row Sample.alice] ∧
  first_missing (delete "date" (summary_of_row Sample.carol)) = Some "date" ∧
  prepare_prompt Sample.repr
    ([summary_of_row Sample.alice]
     ++ delete "date" (summary_of_row Sample.carol) :: [])
  = Raise (KeyError "date").
Proof.
  assert (Ha : Forall2 enriched [Sample.alice] [summary_of_row Sample.alice])
    by (constructor; [by left|constructor]).
  split; [exact Ha|]. split; [reflexivity|].
  exact (prompt_missing_key Sample.repr [Sample.alice] _ []
           (delete "date" (summary_of_row Sample.carol)) "date" Ha eq_refl).
Defined.

(** X9. The prompt shows a prefix of the hash of a commit, of eight
    characters or of the whole hash when it is shorter, followed by the
    author, the date and the message as they are. *)
Theorem hash_is_truncated (repr : list diff_stat → string)
    (prompt ch a d m : string) :
  ∃ shown rest,
    ch = shown +:+ rest ∧
    String.length shown = Nat.min 8 (String.length ch) ∧
    add_commit repr prompt (CommitSummary ch a d m)
    = Return (prompt +:+ "Commit Hash: " +:+ shown +:+ nl
              +:+ "Author: " +:+ a +:+ nl
              +:+ "Date: " +:+ d +:+ nl
              +:+ "Message: " +:+ m +:+ nl +:+ nl).
Proof.
  destruct (slice_to_prefix 8 ch) as (rest & Hrest).
  exists (Py.slice_to 8 ch), rest. split; [done|]. split; [apply slice_to_length|].
  destruct (summary_lookup ch a d m) as (H1 & H2 & H3 & H4 & H5 & H6).
  rewrite (add_commit_text repr prompt _ ch a d m None None) by done.
  unfold commit_text, header_text, details_text, stats_text. simpl.
  by rewrite !str_app_assoc.
Qed.



(** X11. A run sends at most one request to the service, and only as its
    last action: after a non-empty history whose details were all fetched.
    The request carries the fixed model, the fixed framing message and the
    prompt made of the preamble, the texts of the commits the loop returned
    and the closing. *)
Theorem one_request_at_the_end (w : World) (repr : list diff_stat → string)
    (n : Z) (h : history) :
  ∃ o evs,
    generate_changelog w repr n h = (o, h ++ evs) ∧
    (quiet evs ∨
     ∃ evs' commits h1 cs,
       evs = evs'
             ++ [Create {| model := "gpt-3.5-turbo";
                           messages := [("user", system_text);
                                        ("user", preamble +:+ body_text cs +:+ closing)];
                           temperature := 7 # 10 |}] ∧
       quiet evs' ∧
       get_recent_commits w n h = (Return commits, h1) ∧ commits ≠ [] ∧
       for_each (detail_step w) commits [] h1 = (Return cs, h ++ evs')).
Proof.
  destruct (get_recent_commits_cases w n h) as (o & evs & Hget & Hq & Hne & Hcases).
  destruct Hcases as [([|r rows] & ->)|(e & -> & He)].
  - eexists _, evs. split; [by apply generate_changelog_empty|]. by left.
  - destruct (detail_loop w (r :: rows) [] (h ++ evs))
      as (o1 & evs1 & Hloop & Hq1 & [(cs & -> & _)|(e & -> & He)]).
    + eexists _, ((evs ++ evs1) ++ [_]). split.
      * rewrite (generate_changelog_asks w repr n h _ _ cs _ Hget ltac:(done) Hloop).
        by rewrite !app_assoc.
      * right. exists (evs ++ evs1), (map summary_of_row (r :: rows)), (h ++ evs), cs.
        split_and!; [done|by apply Forall_app|done|done|].
        by rewrite app_assoc.
    + eexists _, (evs ++ evs1). split.
      * rewrite app_assoc.
        by apply (generate_changelog_loop_raises w repr n h _ _ e _ Hget).
      * left. by apply Forall_app.
  - eexists _, evs. split; [by apply generate_changelog_reader_raises|]. by left.
Qed.

Lemma one_request_at_the_end_witness :
  ∃ evs' cs,
    (generate_changelog Sample.world_up Sample.repr 3 []).2
    = [] ++ evs' ++ [Create (chat_request (preamble +:+ body_text cs +:+ closing))] ∧
    for_each (detail_step Sample.world_up)
      [summary_of_row Sample.alice; summary_of_row Sample.carol] [] [Run (log_cmd 3)]
    = (Return cs, [] ++ evs').
Proof.
  destruct (one_request_at_the_end Sample.world_up Sample.repr 3 [])
    as (o & evs & Heq & [Hq|(evs' & commits & h1 & cs & -> & _ & Hget & _ & Hloop)]).
  - assert (Hc : (generate_changelog Sample.world_up Sample.repr 3 []).2
                 = Sample.fetched ++ [Create (chat_request Sample.prompt)])
      by (vm_compute; reflexivity).
    rewrite Heq in Hc. simpl in Hc. subst evs.
    assert (Hcreate : is_create (Create (chat_request Sample.prompt)) = false).
    { apply (proj1 (Forall_forall _ _) Hq). apply list_elem_of_In. simpl. tauto. }
    discriminate Hcreate.
  - exists evs', cs. split; [by rewrite Heq|].
    assert (Hr : get_recent_commits Sample.world_up 3 []
                 = (Return [summary_of_row Sample.alice; summary_of_row Sample.carol],
                    [Run (log_cmd 3)])) by reflexivity.
    rewrite Hr in Hget. injection Hget as <- <-. exact Hloop.
Defined.
